(** * jsonlog: the read path, the filters, compression and level dispatch

    A shallow embedding of [logger.go] (package [jsonlog]).  Go values of
    type [map[string]interface{}] are finite maps from strings to JSON
    values; the operating system, the gzip codec, [time.Parse] and
    [filepath.Join] are collaborators outside the package and are taken
    as section variables or as a fault oracle. *)

From Stdlib Require Import ZArith List Ascii String Bool Lia.
From stdpp Require Import base option gmap strings list fin_maps.
Import ListNotations.

#[local] Set Warnings "-register-all".

Local Open Scope string_scope.
Local Open Scope list_scope.

(** ** Decoded records *)

(** The dynamic values [encoding/json] stores in an [interface{}]:
    [nil], [bool], [float64], [string], [[]interface{}] and
    [map[string]interface{}].  A [float64] is kept as the decimal literal
    it was read from. *)
Inductive JValue : Type :=
| JNull
| JBool (b : bool)
| JNumber (lit : string)
| JString (s : string)
| JArray (vs : list JValue)
| JObject (m : gmap string JValue).

(** [map[string]interface{}]; a nil map and an empty map read alike. *)
Abbreviation LogEntry := (gmap string JValue).

(** [type FilterFunc func(log map[string]interface{}) bool] *)
Definition FilterFunc : Type := LogEntry -> bool.

(** Go's [l == level] for an interface value [l] and a string [level]:
    true when the dynamic type of [l] is [string] and the values agree. *)
Definition iface_eq_string (l : JValue) (level : string) : bool :=
  match l with
  | JString s => String.eqb s level
  | _ => false
  end.

(** [FilterByLevel], logger.go:320 *)
Definition FilterByLevel (level : string) : FilterFunc :=
  fun log =>
    match log !! "level" with
    | Some l => iface_eq_string l level
    | None => false
    end.

(** ** [encoding/json]: the streaming decoder

    [ReadCompressedLogs] drives a [json.Decoder] with [More] and [Decode].
    The decoder is modelled after the standard library: a scanner that is
    a pushdown automaton over the bytes of the stream ([scanner.go]), the
    values it denotes ([decode.go]) and the buffer position and sticky
    error of [stream.go].  Byte strings are [string]s. *)
Module Json.

Definition byte_is (c d : ascii) : bool := Ascii.eqb c d.
Definition code (c : ascii) : N := N_of_ascii c.
Definition in_range (lo hi : N) (c : ascii) : bool :=
  ((lo <=? code c) && (code c <=? hi))%N.

(** [isSpace]: space, tab, carriage return, line feed. *)
Definition isSpace (c : ascii) : bool :=
  byte_is c " " || byte_is c "009" || byte_is c "013" || byte_is c "010".

Definition isDigit (c : ascii) : bool := in_range 48 57 c.
Definition isDigit19 (c : ascii) : bool := in_range 49 57 c.
Definition isHex (c : ascii) : bool :=
  isDigit c || in_range 97 102 c || in_range 65 70 c.

(** *** Strings: [unquote] *)

Definition hexval (c : ascii) : N :=
  (if isDigit c then code c - 48
   else if in_range 97 102 c then code c - 87
   else code c - 55)%N.

Definition getu4 (h1 h2 h3 h4 : ascii) : N :=
  (((hexval h1 * 16 + hexval h2) * 16 + hexval h3) * 16 + hexval h4)%N.

Definition byte_of (n : N) : string := String (ascii_of_N n) "".

(** U+FFFD in UTF-8. *)
Definition ReplacementChar : string :=
  byte_of 239 +:+ byte_of 191 +:+ byte_of 189.

Definition IsSurrogate (r : N) : bool := ((55296 <=? r) && (r <=? 57343))%N.

(** [utf8.EncodeRune] *)
Definition EncodeRune (r : N) : string :=
  (if r <? 128 then byte_of r
   else if r <? 2048 then
     byte_of (N.lor 192 (N.shiftr r 6)) +:+ byte_of (N.lor 128 (N.land r 63))
   else if IsSurrogate r then ReplacementChar
   else if r <? 65536 then
     byte_of (N.lor 224 (N.shiftr r 12))
     +:+ byte_of (N.lor 128 (N.land (N.shiftr r 6) 63))
     +:+ byte_of (N.lor 128 (N.land r 63))
   else if r <=? 1114111 then
     byte_of (N.lor 240 (N.shiftr r 18))
     +:+ byte_of (N.lor 128 (N.land (N.shiftr r 12) 63))
     +:+ byte_of (N.lor 128 (N.land (N.shiftr r 6) 63))
     +:+ byte_of (N.lor 128 (N.land r 63))
   else ReplacementChar)%N.

(** [utf16.DecodeRune] on a high and a low surrogate. *)
Definition DecodeSurrogates (r1 r2 : N) : option N :=
  (if (55296 <=? r1) && (r1 <? 56320) && (56320 <=? r2) && (r2 <? 57344)
   then Some (N.lor (N.shiftl (r1 - 55296) 10) (r2 - 56320) + 65536)
   else None)%N.

Definition escape_byte (e : ascii) : ascii :=
  if byte_is e "b" then "008"%char
  else if byte_is e "f" then "012"%char
  else if byte_is e "n" then "010"%char
  else if byte_is e "r" then "013"%char
  else if byte_is e "t" then "009"%char
  else e.

Definition cont (c : ascii) : bool := in_range 128 191 c.

(** The well-formed UTF-8 sequences of [utf8.DecodeRune]. *)
Definition utf8_2 (c c2 : ascii) : bool := in_range 194 223 c && cont c2.
Definition utf8_3 (c c2 c3 : ascii) : bool :=
  ((in_range 224 224 c && in_range 160 191 c2)
   || ((in_range 225 236 c || in_range 238 239 c) && cont c2)
   || (in_range 237 237 c && in_range 128 159 c2))
  && cont c3.
Definition utf8_4 (c c2 c3 c4 : ascii) : bool :=
  ((in_range 240 240 c && in_range 144 191 c2)
   || (in_range 241 243 c && cont c2)
   || (in_range 244 244 c && in_range 128 143 c2))
  && cont c3 && cont c4.

(** [unquote] on the bytes between the quotes of a literal the scanner
    accepted: escapes are decoded, a [\u] surrogate pair becomes one rune,
    a lone surrogate and every byte that starts no well-formed UTF-8
    sequence become U+FFFD. *)
Fixpoint unquote (s : string) : string :=
  match s with
  | EmptyString => ""
  | String c s1 =>
    if byte_is c "\" then
      match s1 with
      | EmptyString => ""
      | String e s2 =>
        if byte_is e "u" then
          match s2 with
          | String h1 (String h2 (String h3 (String h4 s3))) =>
            let rr := getu4 h1 h2 h3 h4 in
            if IsSurrogate rr then
              match s3 with
              | String b1 (String b2 (String g1 (String g2 (String g3 (String g4 s4))))) =>
                if byte_is b1 "\" && byte_is b2 "u"
                   && isHex g1 && isHex g2 && isHex g3 && isHex g4
                then
                  match DecodeSurrogates rr (getu4 g1 g2 g3 g4) with
                  | Some r => EncodeRune r +:+ unquote s4
                  | None => ReplacementChar +:+ unquote s3
                  end
                else ReplacementChar +:+ unquote s3
              | _ => ReplacementChar +:+ unquote s3
              end
            else EncodeRune rr +:+ unquote s3
          | _ => ""
          end
        else String (escape_byte e) (unquote s2)
      end
    else if (code c <? 128)%N then String c (unquote s1)
    else
      match s1 with
      | String c2 s2 =>
        if utf8_2 c c2 then String c (String c2 (unquote s2))
        else
          match s2 with
          | String c3 s3 =>
            if utf8_3 c c2 c3 then String c (String c2 (String c3 (unquote s3)))
            else
              match s3 with
              | String c4 s4 =>
                if utf8_4 c c2 c3 c4
                then String c (String c2 (String c3 (String c4 (unquote s4))))
                else ReplacementChar +:+ unquote s1
              | EmptyString => ReplacementChar +:+ unquote s1
              end
          | EmptyString => ReplacementChar +:+ unquote s1
          end
      | EmptyString => ReplacementChar
      end
  end.

(** *** Numbers: [strconv.ParseFloat] range errors *)

Fixpoint span_digits (s : string) : string * string :=
  match s with
  | String c r =>
    if isDigit c then let (d, t) := span_digits r in (String c d, t)
    else ("", s)
  | EmptyString => ("", "")
  end.

Fixpoint digits_to_Z (acc : Z) (s : string) : Z :=
  match s with
  | EmptyString => acc
  | String c r => digits_to_Z (acc * 10 + (Z.of_N (code c) - 48)) r
  end.

(** A number literal [-? int (. frac)? ([eE] [+-]? exp)?] as the pair
    [(m, e)] with absolute value [m * 10^e]. *)
Definition decimal_of_literal (lit : string) : Z * Z :=
  let body := match lit with
              | String c r => if byte_is c "-" then r else lit
              | EmptyString => lit
              end in
  let (ip, r1) := span_digits body in
  let (fp, r2) := match r1 with
                  | String c r => if byte_is c "." then span_digits r else ("", r1)
                  | EmptyString => ("", r1)
                  end in
  let ex := match r2 with
            | String _ (String c r) =>
              if byte_is c "-" then (- digits_to_Z 0 r)%Z
              else if byte_is c "+" then digits_to_Z 0 r
              else digits_to_Z 0 (String c r)
            | _ => 0%Z
            end in
  (digits_to_Z 0 (ip +:+ fp), (ex - Z.of_nat (String.length fp))%Z).

(** The literal rounds (to nearest, ties to even) beyond the largest
    finite [float64]: [strconv.ParseFloat] reports [ErrRange] and the
    decoder records an [UnmarshalTypeError]. *)
Definition float64_overflows (lit : string) : bool :=
  let (m, e) := decimal_of_literal lit in
  let limit := (2 ^ 1024 - 2 ^ 970)%Z in
  if (0 <=? e)%Z then (limit <=? m * 10 ^ e)%Z
  else (limit * 10 ^ (- e) <=? m)%Z.

(** *** The scanner *)

(** [parseState]: what encloses the value being read.  Each frame carries
    what the decoder has built of the enclosing value so far. *)
Inductive Frame : Type :=
| parseObjectKey (m : gmap string JValue)
| parseObjectValue (m : gmap string JValue) (k : string)
| parseArrayValue (vs : list JValue).

(** [scanner.step]: the state functions of [scanner.go].  String and
    number states carry the bytes read so far, [stateEndValue] the value
    just completed. *)
Inductive stepState : Type :=
| stateBeginValue
| stateBeginValueOrEmpty
| stateBeginStringOrEmpty
| stateBeginString
| stateEndValue (v : JValue)
| stateInString (raw : string)
| stateInStringEsc (raw : string)
| stateInStringEscU (seen : nat) (raw : string)
| stateNeg (lit : string)
| state1 (lit : string)
| state0 (lit : string)
| stateDot (lit : string)
| stateDot0 (lit : string)
| stateE (lit : string)
| stateESign (lit : string)
| stateE0 (lit : string)
| stateLiteral (rest : string) (v : JValue).

Record scanner : Type := mkScanner {
  step : stepState;
  parseState : list Frame;
  savedError : bool   (* [decodeState.savedError] is set *)
}.

(** [scanner.reset] *)
Definition reset : scanner :=
  {| step := stateBeginValue; parseState := []; savedError := false |}.

Inductive opcode : Type :=
| scanContinue (s : scanner)
| scanEnd (v : JValue) (saved : bool)
    (* the top-level value ended before this byte *)
| scanEndBracket (v : JValue) (saved : bool)
    (* this byte closed the top-level object or array *)
| scanError.

Definition maxNestingDepth : N := 10000.

Definition goto (st : stepState) (s : scanner) : opcode :=
  scanContinue {| step := st; parseState := parseState s; savedError := savedError s |}.

Definition pushParseState (f : Frame) (st : stepState) (s : scanner) : opcode :=
  let ps := f :: parseState s in
  if (N.of_nat (length ps) <=? maxNestingDepth)%N
  then scanContinue {| step := st; parseState := ps; savedError := savedError s |}
  else scanError.

(** [popParseState] after a closing bracket, with the value it closed. *)
Definition popParseState (v : JValue) (ps : list Frame) (saved : bool) : opcode :=
  match ps with
  | [] => scanEndBracket v saved
  | _ :: _ => scanContinue {| step := stateEndValue v; parseState := ps; savedError := saved |}
  end.

Definition snoc (raw : string) (c : ascii) : string := raw +:+ String c "".

(** [stateEndValue]: after the value [v], such as after reading [{}] or
    [true] or [["x"]. *)
Definition stateEndValue_step (v : JValue) (s : scanner) (c : ascii) : opcode :=
  match parseState s with
  | [] => scanEnd v (savedError s)
  | f :: ps =>
    if isSpace c then goto (stateEndValue v) s
    else
      match f with
      | parseObjectKey m =>
        match v with
        | JString k =>
          if byte_is c ":" then
            scanContinue {| step := stateBeginValue;
                            parseState := parseObjectValue m k :: ps;
                            savedError := savedError s |}
          else scanError
        | _ => scanError
        end
      | parseObjectValue m k =>
        if byte_is c "," then
          scanContinue {| step := stateBeginString;
                          parseState := parseObjectKey (<[k:=v]> m) :: ps;
                          savedError := savedError s |}
        else if byte_is c "}" then
          popParseState (JObject (<[k:=v]> m)) ps (savedError s)
        else scanError
      | parseArrayValue vs =>
        if byte_is c "," then
          scanContinue {| step := stateBeginValue;
                          parseState := parseArrayValue (vs ++ [v]) :: ps;
                          savedError := savedError s |}
        else if byte_is c "]" then
          popParseState (JArray (vs ++ [v])) ps (savedError s)
        else scanError
      end
  end.

(** A number literal is complete: [convertNumber], then [stateEndValue]. *)
Definition endNumber (lit : string) (s : scanner) (c : ascii) : opcode :=
  if float64_overflows lit then
    stateEndValue_step JNull
      {| step := step s; parseState := parseState s; savedError := true |} c
  else stateEndValue_step (JNumber lit) s c.

Definition stateBeginValue_step (s : scanner) (c : ascii) : opcode :=
  if isSpace c then scanContinue s
  else if byte_is c "{" then pushParseState (parseObjectKey ∅) stateBeginStringOrEmpty s
  else if byte_is c "[" then pushParseState (parseArrayValue []) stateBeginValueOrEmpty s
  else if byte_is c "034" then goto (stateInString "") s
  else if byte_is c "-" then goto (stateNeg (String c "")) s
  else if byte_is c "0" then goto (state0 (String c "")) s
  else if byte_is c "t" then goto (stateLiteral "rue" (JBool true)) s
  else if byte_is c "f" then goto (stateLiteral "alse" (JBool false)) s
  else if byte_is c "n" then goto (stateLiteral "ull" JNull) s
  else if isDigit19 c then goto (state1 (String c "")) s
  else scanError.

Definition stateBeginString_step (s : scanner) (c : ascii) : opcode :=
  if isSpace c then scanContinue s
  else if byte_is c "034" then goto (stateInString "") s
  else scanError.

Definition state0_step (lit : string) (s : scanner) (c : ascii) : opcode :=
  if byte_is c "." then goto (stateDot (snoc lit c)) s
  else if byte_is c "e" || byte_is c "E" then goto (stateE (snoc lit c)) s
  else endNumber lit s c.

Definition stateESign_step (lit : string) (s : scanner) (c : ascii) : opcode :=
  if isDigit c then goto (stateE0 (snoc lit c)) s else scanError.

(** One call of [s.step(s, c)]. *)
Definition scan_step (s : scanner) (c : ascii) : opcode :=
  match step s with
  | stateBeginValue => stateBeginValue_step s c
  | stateBeginValueOrEmpty =>
    if isSpace c then scanContinue s
    else if byte_is c "]" then
      match parseState s with
      | parseArrayValue vs :: ps => popParseState (JArray vs) ps (savedError s)
      | _ => scanError
      end
    else stateBeginValue_step s c
  | stateBeginStringOrEmpty =>
    if isSpace c then scanContinue s
    else if byte_is c "}" then
      match parseState s with
      | parseObjectKey m :: ps => popParseState (JObject m) ps (savedError s)
      | _ => scanError
      end
    else stateBeginString_step s c
  | stateBeginString => stateBeginString_step s c
  | stateEndValue v => stateEndValue_step v s c
  | stateInString raw =>
    if byte_is c "034" then goto (stateEndValue (JString (unquote raw))) s
    else if byte_is c "\" then goto (stateInStringEsc (snoc raw c)) s
    else if (code c <? 32)%N then scanError
    else goto (stateInString (snoc raw c)) s
  | stateInStringEsc raw =>
    if byte_is c "b" || byte_is c "f" || byte_is c "n" || byte_is c "r"
       || byte_is c "t" || byte_is c "\" || byte_is c "/" || byte_is c "034"
    then goto (stateInString (snoc raw c)) s
    else if byte_is c "u" then goto (stateInStringEscU 0 (snoc raw c)) s
    else scanError
  | stateInStringEscU seen raw =>
    if isHex c then
      if (seen <? 3)%nat then goto (stateInStringEscU (S seen) (snoc raw c)) s
      else goto (stateInString (snoc raw c)) s
    else scanError
  | stateNeg lit =>
    if byte_is c "0" then goto (state0 (snoc lit c)) s
    else if isDigit19 c then goto (state1 (snoc lit c)) s
    else scanError
  | state1 lit =>
    if isDigit c then goto (state1 (snoc lit c)) s else state0_step lit s c
  | state0 lit => state0_step lit s c
  | stateDot lit =>
    if isDigit c then goto (stateDot0 (snoc lit c)) s else scanError
  | stateDot0 lit =>
    if isDigit c then goto (stateDot0 (snoc lit c)) s
    else if byte_is c "e" || byte_is c "E" then goto (stateE (snoc lit c)) s
    else endNumber lit s c
  | stateE lit =>
    if byte_is c "+" || byte_is c "-" then goto (stateESign (snoc lit c)) s
    else stateESign_step lit s c
  | stateESign lit => stateESign_step lit s c
  | stateE0 lit =>
    if isDigit c then goto (stateE0 (snoc lit c)) s else endNumber lit s c
  | stateLiteral rest v =>
    match rest with
    | String e EmptyString => if byte_is c e then goto (stateEndValue v) s else scanError
    | String e rest' => if byte_is c e then goto (stateLiteral rest' v) s else scanError
    | EmptyString => scanError
    end
  end.

(** *** The stream decoder *)

(** How the underlying [io.Reader] ends: [io.EOF] after the last byte, or
    a read error (for a gzip stream: a checksum mismatch, corrupt
    compressed data, a truncated stream). *)
Inductive io_error : Type :=
| io_EOF
| io_ErrUnexpectedEOF
| gzip_ErrChecksum
| gzip_ErrHeader
| flate_CorruptInputError.

Inductive json_error : Type :=
| SyntaxError
| UnmarshalTypeError
| ReadError (e : io_error).

(** [json.Decoder]: [buf] is the unread input from [scanp] on (all of what
    the reader still delivers), [rd_end] the way the reader ends, [err]
    the sticky [dec.err]. *)
Record Decoder : Type := mkDecoder {
  buf : string;
  rd_end : io_error;
  err : option json_error
}.

(** [json.NewDecoder] on a reader that delivers [data] and then ends
    with [e]. *)
Definition NewDecoder (data : string) (e : io_error) : Decoder :=
  {| buf := data; rd_end := e; err := None |}.

Fixpoint skipSpace (s : string) : string :=
  match s with
  | String c r => if isSpace c then skipSpace r else s
  | EmptyString => ""
  end.

(** [nonSpace] *)
Definition nonSpace (s : string) : bool :=
  match skipSpace s with EmptyString => false | String _ _ => true end.

(** [Decoder.More]: [peek] moves [scanp] to the next byte that is not
    white space; there is another element unless that byte is a closing
    bracket or the input has ended. *)
Definition More (dec : Decoder) : bool * Decoder :=
  match skipSpace (buf dec) with
  | EmptyString => (false, dec)
  | String c r =>
    (negb (byte_is c "]") && negb (byte_is c "}"),
     {| buf := String c r; rd_end := rd_end dec; err := err dec |})
  end.

Inductive readResult : Type :=
| readOk (v : JValue) (saved : bool) (rest : string)
| readErr (e : json_error).

(** [Decoder.readValue]: run the scanner over the input until a whole
    value has been read.  [all] is the input the call started with. *)
Fixpoint readValue (all : string) (e : io_error) (s : scanner) (input : string)
  : readResult :=
  match input with
  | String c rest =>
    match scan_step s c with
    | scanContinue s' => readValue all e s' rest
    | scanEnd v saved => readOk v saved input
    | scanEndBracket v saved => readOk v saved rest
    | scanError => readErr SyntaxError
    end
  | EmptyString =>
    match e with
    | io_EOF =>
      match scan_step s " " with
      | scanEnd v saved => readOk v saved ""
      | _ => readErr (ReadError (if nonSpace all then io_ErrUnexpectedEOF else io_EOF))
      end
    | _ => readErr (ReadError e)
    end
  end.

(** [decodeState.unmarshal] into a [*map[string]interface{}] that points
    to a nil map: an object becomes the map, [null] leaves the map nil,
    every other value is an [UnmarshalTypeError], and so is a number out
    of range anywhere in the value. *)
Definition unmarshal (v : JValue) (saved : bool) : json_error + LogEntry :=
  if saved then inl UnmarshalTypeError
  else
    match v with
    | JObject m => inr m
    | JNull => inr ∅
    | _ => inl UnmarshalTypeError
    end.

(** [Decoder.Decode(&logEntry)].  An error of [readValue] is kept in
    [dec.err] and the input is not advanced; an error of [unmarshal] is
    returned once and the value is consumed. *)
Definition Decode (dec : Decoder) : (json_error + LogEntry) * Decoder :=
  match err dec with
  | Some e => (inl e, dec)
  | None =>
    match readValue (buf dec) (rd_end dec) reset (buf dec) with
    | readErr e => (inl e, {| buf := buf dec; rd_end := rd_end dec; err := Some e |})
    | readOk v saved rest =>
      (unmarshal v saved, {| buf := rest; rd_end := rd_end dec; err := None |})
    end
  end.

(** Test input: the text with every apostrophe read as a double quote. *)
Fixpoint json_text (s : string) : string :=
  match s with
  | String c r => String (if byte_is c "'" then "034"%char else c) (json_text r)
  | EmptyString => ""
  end.

Definition LF : string := String "010" "".

End Json.

Import Json.

(** ** Errors *)

Inductive Errno : Type := ENOENT | EACCES | EISDIR | ENOSPC | EIO.

(** Go [error] values of this package: what the operating system and the
    gzip reader report, and what [fmt.Errorf] builds from them.
    [Errorf msg cause] is [fmt.Errorf(msg + "%w", cause)]. *)
Inductive error : Type :=
| PathError (op path : string) (e : Errno)
| GzipError (e : io_error)
| ErrorNew (msg : string)
| Errorf (msg : string) (cause : error).

(** [errors.Is(err, fs.ErrNotExist)]: follow the [%w] chain. *)
Fixpoint Is_ErrNotExist (err : error) : bool :=
  match err with
  | PathError _ _ ENOENT => true
  | Errorf _ cause => Is_ErrNotExist cause
  | _ => false
  end.

(** The text [fmt.Errorf] put in front of the wrapped error. *)
Definition Message (err : error) : string :=
  match err with
  | Errorf msg _ => msg
  | ErrorNew msg => msg
  | _ => ""
  end.

(** ** The operating system

    The file system maps the path of a regular file to its bytes;
    directories are not tracked.  A call fails when its file is missing,
    or when the fault oracle says so (permissions, a full disk, a failing
    device).  [fault_archive] is what is found in the archive after a
    copy or a flush that failed. *)
Abbreviation FileSystem := (gmap string string).

Record Faults : Type := mkFaults {
  mkdir_fault : string -> option Errno;
  stat_fault : string -> option Errno;
  open_fault : string -> option Errno;
  create_fault : string -> option Errno;
  copy_fault : option Errno;
  flush_fault : option Errno;
  fault_archive : string
}.

Definition no_faults : Faults :=
  {| mkdir_fault := fun _ => None; stat_fault := fun _ => None;
     open_fault := fun _ => None; create_fault := fun _ => None;
     copy_fault := None; flush_fault := None; fault_archive := "" |}.

Definition os_MkdirAll (os : Faults) (path : string) : option error :=
  match mkdir_fault os path with
  | Some e => Some (PathError "mkdir" path e)
  | None => None
  end.

Definition os_Stat (os : Faults) (fs : FileSystem) (path : string) : option error :=
  match fs !! path with
  | None => Some (PathError "stat" path ENOENT)
  | Some _ =>
    match stat_fault os path with
    | Some e => Some (PathError "stat" path e)
    | None => None
    end
  end.

(** [os.Open]: the bytes the file handle will deliver. *)
Definition os_Open (os : Faults) (fs : FileSystem) (path : string) : error + string :=
  match fs !! path with
  | None => inl (PathError "open" path ENOENT)
  | Some data =>
    match open_fault os path with
    | Some e => inl (PathError "open" path e)
    | None => inr data
    end
  end.

(** [os.Create]: the file is created, or truncated when it exists. *)
Definition os_Create (os : Faults) (fs : FileSystem) (path : string) : error + FileSystem :=
  match create_fault os path with
  | Some e => inl (PathError "open" path e)
  | None => inr (<[path := ""]> fs)
  end.

(** ** The logger *)

(** [type LogLevel string] and its constants. *)
Definition LogLevel : Type := string.
Definition DebugLevel : LogLevel := "debug".
Definition InfoLevel : LogLevel := "info".
Definition WarnLevel : LogLevel := "warn".
Definition ErrorLevel : LogLevel := "error".
Definition FatalLevel : LogLevel := "fatal".
Definition PanicLevel : LogLevel := "panic".

(** [lumberjack.Logger]: the rolling file destination.  [MaxSize] is in
    megabytes, [MaxAge] in days. *)
Record lumberjack_Logger : Type := mkLumberjack {
  Filename : string;
  MaxSize : Z;
  MaxBackups : Z;
  MaxAge : Z
}.

Inductive zapcore_Level : Type :=
| zap_DebugLevel | zap_InfoLevel | zap_WarnLevel
| zap_ErrorLevel | zap_PanicLevel | zap_FatalLevel.

(** [zapcore.EncoderConfig]: the keys of the reserved fields and the
    encoders of level, time, duration and caller. *)
Inductive LevelEncoder : Type := LowercaseLevelEncoder | CapitalLevelEncoder.
Inductive TimeEncoder : Type := ISO8601TimeEncoder | RFC3339NanoTimeEncoder | EpochTimeEncoder.
Inductive DurationEncoder : Type := StringDurationEncoder | SecondsDurationEncoder.
Inductive CallerEncoder : Type := ShortCallerEncoder | FullCallerEncoder.

Record zapcore_EncoderConfig : Type := mkEncoderConfig {
  TimeKey : string;
  LevelKey : string;
  NameKey : string;
  CallerKey : string;
  FunctionKey : string;
  MessageKey : string;
  StacktraceKey : string;
  LineEnding : string;
  EncodeLevel : LevelEncoder;
  EncodeTime : TimeEncoder;
  EncodeDuration : DurationEncoder;
  EncodeCaller : CallerEncoder
}.

Definition zapcore_OmitKey : string := "".
Definition zapcore_DefaultLineEnding : string := LF.

Inductive zapcore_Encoder : Type :=
| NewJSONEncoder (cfg : zapcore_EncoderConfig)
| NewConsoleEncoder (cfg : zapcore_EncoderConfig).
Inductive zapcore_WriteSyncer : Type :=
| FileSync (w : lumberjack_Logger)
| Stdout.

(** [zapcore.NewCore(enc, ws, enab)] *)
Record zapcore_Core : Type := NewCore {
  core_enc : zapcore_Encoder;
  core_ws : zapcore_WriteSyncer;
  core_enab : zapcore_Level
}.

(** [type Logger struct]; [zapLogger] is the tee of its cores. *)
Record Logger : Type := mkLogger {
  zapLogger : list zapcore_Core;
  filePath : string;
  fileLogger : lumberjack_Logger
}.

(** [type Config struct] *)
Record Config : Type := mkConfig {
  LogPath : string;
  LogFileName : string;
  EnableConsoleOutput : bool;
  CompressOnClose : bool;
  RotationSize : Z
}.

(** The [encoderConfig] of [NewLogger], logger.go:106. *)
Definition encoderConfig : zapcore_EncoderConfig :=
  {| TimeKey := "timestamp";
     LevelKey := "level";
     NameKey := "logger";
     CallerKey := "caller";
     FunctionKey := zapcore_OmitKey;
     MessageKey := "message";
     StacktraceKey := "stacktrace";
     LineEnding := zapcore_DefaultLineEnding;
     EncodeLevel := LowercaseLevelEncoder;
     EncodeTime := ISO8601TimeEncoder;
     EncodeDuration := StringDurationEncoder;
     EncodeCaller := ShortCallerEncoder |}.

Section NewLogger.

(** [filepath.Join] *)
Variable filepath_Join : string -> string -> string.

(** [NewLogger], logger.go:87 *)
Definition NewLogger (os : Faults) (config : Config) : error + Logger :=
  if String.eqb (LogPath config) "" then inl (ErrorNew "LogPath is required")
  else
    let LogFileName' :=
      if String.eqb (LogFileName config) "" then "app" else LogFileName config in
    match os_MkdirAll os (LogPath config) with
    | Some err => inl (Errorf "failed to create log directory: " err)
    | None =>
      let logFilePath := filepath_Join (LogPath config) (LogFileName' +:+ ".log") in
      let fileEncoder := NewJSONEncoder encoderConfig in
      let fileLogger :=
        {| Filename := logFilePath; MaxSize := 100; MaxBackups := 3; MaxAge := 28 |} in
      let fileSync := FileSync fileLogger in
      let fileCore := NewCore fileEncoder fileSync zap_DebugLevel in
      let cores := [fileCore] in
      let cores :=
        if EnableConsoleOutput config
        then
          let consoleEncoder := NewConsoleEncoder encoderConfig in
          let consoleCore := NewCore consoleEncoder Stdout zap_DebugLevel in
          cores ++ [consoleCore]
        else cores in
      inr {| zapLogger := cores; filePath := logFilePath; fileLogger := fileLogger |}
    end.

End NewLogger.

(** *** Leveled logging *)

Section Logging.

(** [zap.Field] *)
Variable Field : Type.

(** What a call on the [zap.Logger] leaves behind: the entry handed to
    the cores and how control goes on ([Fatal] exits the process,
    [Panic] panics). *)
Record Entry : Type := mkEntry {
  entry_level : zapcore_Level;
  entry_message : string;
  entry_fields : list Field
}.

Inductive Control : Type := Returns | Exits (code : Z) | Panics (msg : string).

Definition level_rank (lvl : zapcore_Level) : Z :=
  match lvl with
  | zap_DebugLevel => -1 | zap_InfoLevel => 0 | zap_WarnLevel => 1
  | zap_ErrorLevel => 2 | zap_PanicLevel => 4 | zap_FatalLevel => 5
  end.

(** [zap.Logger.Debug] and its siblings: every core of the tee whose
    level enables [lvl] receives the entry on its sink. *)
Definition zap_log (z : list zapcore_Core) (lvl : zapcore_Level) (message : string)
    (fields : list Field) (written : list (zapcore_WriteSyncer * Entry))
  : list (zapcore_WriteSyncer * Entry) * Control :=
  (written ++
     map (fun core => (core_ws core, mkEntry lvl message fields))
         (List.filter (fun core => (level_rank (core_enab core) <=? level_rank lvl)%Z) z),
   match lvl with
   | zap_FatalLevel => Exits 1
   | zap_PanicLevel => Panics message
   | _ => Returns
   end).

Definition Debug (l : Logger) := zap_log (zapLogger l) zap_DebugLevel.
Definition Info (l : Logger) := zap_log (zapLogger l) zap_InfoLevel.
Definition Warn (l : Logger) := zap_log (zapLogger l) zap_WarnLevel.
Definition Error (l : Logger) := zap_log (zapLogger l) zap_ErrorLevel.
Definition Fatal (l : Logger) := zap_log (zapLogger l) zap_FatalLevel.
Definition Panic (l : Logger) := zap_log (zapLogger l) zap_PanicLevel.

(** [LogWithLevel], logger.go:186 *)
Definition LogWithLevel (l : Logger) (level : LogLevel) (message : string)
    (fields : list Field)
  : list (zapcore_WriteSyncer * Entry) -> list (zapcore_WriteSyncer * Entry) * Control :=
  if String.eqb level DebugLevel then Debug l message fields
  else if String.eqb level InfoLevel then Info l message fields
  else if String.eqb level WarnLevel then Warn l message fields
  else if String.eqb level ErrorLevel then Error l message fields
  else if String.eqb level FatalLevel then Fatal l message fields
  else if String.eqb level PanicLevel then Panic l message fields
  else Info l message fields.

End Logging.

(** ** Compression *)

Section Compress.

(** [compress/gzip]: the bytes a [gzip.Writer] with default settings has
    written once the data was copied into it and it was flushed and
    closed. *)
Variable gzip_encode : string -> string.

(** [CompressLogFile], logger.go:226.  The deferred [gzipWriter.Close()]
    runs when the function returns; on the path that returns [nil] the
    archive then holds the whole gzip stream. *)
Definition CompressLogFile (os : Faults) (l : Logger) (fs : FileSystem)
  : option error * FileSystem :=
  match os_Stat os fs (filePath l) with
  | Some err => (Some (Errorf "log file not found: " err), fs)
  | None =>
    let compressedPath := filePath l +:+ ".gz" in
    match os_Open os fs (filePath l) with
    | inl err => (Some (Errorf "failed to open source file: " err), fs)
    | inr source =>
      match os_Create os fs compressedPath with
      | inl err => (Some (Errorf "failed to create compressed file: " err), fs)
      | inr fs1 =>
        match copy_fault os with
        | Some e =>
          (Some (Errorf "failed to compress: " (PathError "copy" compressedPath e)),
           <[compressedPath := fault_archive os]> fs1)
        | None =>
          match flush_fault os with
          | Some e =>
            (Some (Errorf "failed to flush gzip writer: "
                     (PathError "write" compressedPath e)),
             <[compressedPath := fault_archive os]> fs1)
          | None => (None, <[compressedPath := gzip_encode source]> fs1)
          end
        end
      end
    end
  end.

End Compress.

(** ** Reading and filtering *)

Section Read.

(** [gzip.NewReader] on the bytes of a file: an error when the gzip
    header cannot be read, else the uncompressed bytes the reader
    delivers and the way it ends. *)
Variable gzip_NewReader : string -> io_error + (string * io_error).

(** The loop [for decoder.More() { ... }] of [ReadCompressedLogs],
    logger.go:288.  [fuel] bounds the number of times the loop condition
    is evaluated; [None] says the loop is still running after that. *)
Fixpoint decodeLoop (fuel : nat) (decoder : Decoder) (logs : list LogEntry)
  : option (list LogEntry) :=
  match fuel with
  | O => None
  | S fuel' =>
    let (more, decoder) := More decoder in
    if more then
      match Decode decoder with
      | (inl _, decoder) => decodeLoop fuel' decoder logs
      | (inr logEntry, decoder) => decodeLoop fuel' decoder (logs ++ [logEntry])
      end
    else Some logs
  end.

(** [ReadCompressedLogs], logger.go:269 *)
Definition ReadCompressedLogs (fuel : nat) (os : Faults) (fs : FileSystem)
    (filePath : string) : option (error + list LogEntry) :=
  match os_Open os fs filePath with
  | inl err => Some (inl (Errorf "failed to open compressed file: " err))
  | inr file =>
    match gzip_NewReader file with
    | inl e => Some (inl (Errorf "failed to create gzip reader: " (GzipError e)))
    | inr (data, e) =>
      match decodeLoop fuel (NewDecoder data e) [] with
      | None => None
      | Some logs => Some (inr logs)
      end
    end
  end.

(** The loop [for _, log := range logs] of [ReadCompressedLogsFiltered],
    logger.go:306. *)
Definition retain (filter : FilterFunc) (logs : list LogEntry) : list LogEntry :=
  fold_left (fun filtered log => if filter log then filtered ++ [log] else filtered)
            logs [].

(** [ReadCompressedLogsFiltered], logger.go:300 *)
Definition ReadCompressedLogsFiltered (fuel : nat) (os : Faults) (fs : FileSystem)
    (filePath : string) (filter : FilterFunc) : option (error + list LogEntry) :=
  match ReadCompressedLogs fuel os fs filePath with
  | None => None
  | Some (inl err) => Some (inl err)
  | Some (inr logs) => Some (inr (retain filter logs))
  end.

End Read.

(** *** Time ranges *)

(** [time.Time] as its instant, in nanoseconds since the epoch. *)
Definition Time : Type := Z.
Definition After (t u : Time) : bool := (u <? t)%Z.
Definition Before (t u : Time) : bool := (t <? u)%Z.

(** [time.RFC3339Nano] *)
Definition RFC3339Nano : string := "2006-01-02T15:04:05.999999999Z07:00".

Section TimeRange.

(** [time.Parse layout value], without the error it reports. *)
Variable time_Parse : string -> string -> option Time.

(** [FilterByTimeRange], logger.go:330 *)
Definition FilterByTimeRange (start end_ : Time) : FilterFunc :=
  fun log =>
    match log !! "timestamp" with
    | Some (JString ts) =>
      let parsed :=
        match time_Parse RFC3339Nano ts with
        | Some t => Some t
        | None =>
          match time_Parse "2006-01-02T15:04:05.000-0700" ts with
          | Some t => Some t
          | None =>
            match time_Parse "2006-01-02T15:04:05.000Z0700" ts with
            | Some t => Some t
            | None => None
            end
          end
        end in
      match parsed with
      | Some t => After t start && Before t end_
      | None => false
      end
    | _ => false
    end.

(** The specification's words: the formats in their order of priority, and the
    first of them that parses. *)
Definition timestamp_layouts : list string :=
  [RFC3339Nano; "2006-01-02T15:04:05.000-0700"; "2006-01-02T15:04:05.000Z0700"].

Fixpoint first_parse (layouts : list string) (ts : string) : option Time :=
  match layouts with
  | [] => None
  | layout :: more =>
    match time_Parse layout ts with
    | Some t => Some t
    | None => first_parse more ts
    end
  end.

Definition in_time_range_spec (start end_ : Time) (log : LogEntry) : Prop :=
  exists ts t,
    log !! "timestamp" = Some (JString ts)
    /\ first_parse timestamp_layouts ts = Some t
    /\ (start < t)%Z /\ (t < end_)%Z.

End TimeRange.

(** ** Closing the logger *)

(** [zapcore.AddSync]: a [lumberjack.Logger] has no [Sync] method and gets
    one that does nothing; [os.Stdout] is synced with [fsync], which may
    fail.  [stdout_sync] is the text of that error, if any. *)
Definition core_Sync (stdout_sync : option string) (core : zapcore_Core) : option string :=
  match core_ws core with
  | FileSync _ => None
  | Stdout => stdout_sync
  end.

(** [multierr.Append] over the cores of the tee: no error, the one error,
    or the errors joined by a semicolon. *)
Definition multierr_text (errs : list string) : option string :=
  match errs with
  | [] => None
  | e :: es => Some (fold_left (fun acc x => acc +:+ "; " +:+ x) es e)
  end.

(** [zap.Logger.Sync] *)
Definition zap_Sync (z : list zapcore_Core) (stdout_sync : option string) : option error :=
  match multierr_text (omap (core_Sync stdout_sync) z) with
  | Some text => Some (ErrorNew text)
  | None => None
  end.

(** [lumberjack.Logger.Close]: nothing to do without an open file; else
    the file is closed and forgotten, whatever [file.Close] answers. *)
Definition lumberjack_Close (file_close : option Errno) (w : lumberjack_Logger)
    (file_open : bool) : option error * bool :=
  if file_open then
    (match file_close with
     | Some e => Some (PathError "close" (Filename w) e)
     | None => None
     end, false)
  else (None, false).

(** [Close], logger.go:206, for a logger whose fields are set as
    [NewLogger] sets them.  [file_open] says whether the lumberjack logger
    holds the log file open. *)
Definition Close (stdout_sync : option string) (file_close : option Errno)
    (l : Logger) (file_open : bool) : option error * bool :=
  let close_file :=
    match lumberjack_Close file_close (fileLogger l) file_open with
    | (Some err, file_open') =>
      (Some (Errorf "failed to close file logger: " err), file_open')
    | (None, file_open') => (None, file_open')
    end in
  match zap_Sync (zapLogger l) stdout_sync with
  | Some err =>
    if negb (String.eqb (Message err) "sync /dev/stdout: The handle is invalid")
    then (Some (Errorf "failed to sync logger: " err), file_open)
    else close_file
  | None => close_file
  end.

(** ** Vocabulary of the statements *)


(** The [Config] with another [RotationSize]. *)
Definition with_RotationSize (config : Config) (n : Z) : Config :=
  {| LogPath := LogPath config; LogFileName := LogFileName config;
     EnableConsoleOutput := EnableConsoleOutput config;
     CompressOnClose := CompressOnClose config; RotationSize := n |}.

(** The I/O steps of a compression all succeed. *)
Definition compress_fault_free (os : Faults) (l : Logger) : Prop :=
  stat_fault os (filePath l) = None
  /\ open_fault os (filePath l) = None
  /\ create_fault os (filePath l +:+ ".gz") = None
  /\ copy_fault os = None
  /\ flush_fault os = None.


(** The lines of a log file, each ended by a line feed. *)
Fixpoint join_lines (lines : list string) : string :=
  match lines with
  | [] => ""
  | line :: more => line +:+ LF +:+ join_lines more
  end.

(** [line] starts with an opening brace and, decoded alone, is the
    object [r]. *)
Definition object_line (line : string) (r : LogEntry) : Prop :=
  (exists body, line = String "{" body)
  /\ Decode (NewDecoder line io_EOF) = (inr r, NewDecoder "" io_EOF).

(** The bytes a JSON value can start with. *)
Definition begins_value (c : ascii) : bool :=
  byte_is c "{" || byte_is c "[" || byte_is c "034" || byte_is c "-"
  || isDigit c || byte_is c "t" || byte_is c "f" || byte_is c "n".

(** Inside an object or an array the scanner neither ends the value
    before a byte nor leaves the brackets without closing them. *)
Definition stays_inside (o : opcode) : Prop :=
  match o with
  | scanContinue s => parseState s <> []
  | scanEnd _ _ => False
  | _ => True
  end.

(** The [Config] with another [LogFileName], and with another
    [CompressOnClose]. *)
Definition with_LogFileName (config : Config) (name : string) : Config :=
  {| LogPath := LogPath config; LogFileName := name;
     EnableConsoleOutput := EnableConsoleOutput config;
     CompressOnClose := CompressOnClose config;
     RotationSize := RotationSize config |}.

Definition with_CompressOnClose (config : Config) (b : bool) : Config :=
  {| LogPath := LogPath config; LogFileName := LogFileName config;
     EnableConsoleOutput := EnableConsoleOutput config;
     CompressOnClose := b; RotationSize := RotationSize config |}.

(** The zap level a level token stands for in [LogWithLevel]. *)
Definition level_of_token (level : LogLevel) : zapcore_Level :=
  if String.eqb level DebugLevel then zap_DebugLevel
  else if String.eqb level WarnLevel then zap_WarnLevel
  else if String.eqb level ErrorLevel then zap_ErrorLevel
  else if String.eqb level FatalLevel then zap_FatalLevel
  else if String.eqb level PanicLevel then zap_PanicLevel
  else zap_InfoLevel.

(** The one sync error [Close] lets pass. *)
Definition benign_sync_text : string := "sync /dev/stdout: The handle is invalid".



(** ** Sample inputs and stand-ins for the collaborators *)

(** A stand-in for [filepath.Join]. *)
Definition join_with_slash (dir file : string) : string := dir +:+ "/" +:+ file.

(** A parser that knows one timestamp, 2025-12-02T07:59:57.317 UTC written
    with the offset +0800, under the second layout. *)
Definition parse_one_timestamp (layout value : string) : option Time :=
  if String.eqb layout "2006-01-02T15:04:05.000-0700"
     && String.eqb value "2025-12-02T15:59:57.317+0800"
  then Some 1764662397317000000%Z else None.

(** A stand-in for the gzip encoder: the magic number, then the data. *)
Definition toy_gzip_encode (data : string) : string :=
  String "031" (String "139" data).

Definition info_line : string := json_text "{'level':'info','message':'started'}".
Definition warn_line : string := json_text "{'level':'warn','message':'slow'}".

Definition info_record : LogEntry :=
  {[ "level" := JString "info"; "message" := JString "started" ]}.
Definition warn_record : LogEntry :=
  {[ "level" := JString "warn"; "message" := JString "slow" ]}.

(** Three lines, the second of which is no JSON, and the same without
    that line. *)
Definition lines_with_malformed : string :=
  info_line +:+ LF +:+ "not json" +:+ LF +:+ warn_line +:+ LF.
Definition lines_without_malformed : string :=
  info_line +:+ LF +:+ warn_line +:+ LF.

(** Four lines at the levels info, warn, error, error. *)
Definition four_levels : string :=
  json_text "{'level':'info','message':'a'}" +:+ LF
  +:+ json_text "{'level':'warn','message':'b'}" +:+ LF
  +:+ json_text "{'level':'error','message':'c'}" +:+ LF
  +:+ json_text "{'level':'error','message':'d'}" +:+ LF.

(** A stand-in for the gzip reader, the inverse of [toy_gzip_encode]. *)
Definition toy_gzip_NewReader (file : string) : io_error + (string * io_error) :=
  match file with
  | String "031" (String "139" data) => inr (data, io_EOF)
  | _ => inl gzip_ErrHeader
  end.

(** An operating system whose disk fills up while the archive is written. *)
Definition disk_full : Faults :=
  {| mkdir_fault := fun _ => None; stat_fault := fun _ => None;
     open_fault := fun _ => None; create_fault := fun _ => None;
     copy_fault := Some ENOSPC; flush_fault := None; fault_archive := "" |}.

(** * Properties *)

(** ** Filtering by level *)

Example FilterByLevel_hit :
  FilterByLevel "error" {[ "level" := JString "error" ]} = true.
Proof. reflexivity. Qed.

Example FilterByLevel_other_case :
  FilterByLevel "error" {[ "level" := JString "Error" ]} = false.
Proof. reflexivity. Qed.

Lemma iface_eq_string_spec (l : JValue) (level : string) :
  iface_eq_string l level = true <-> l = JString level.
Proof.
  destruct l; simpl; try (split; [discriminate | intros H; discriminate H]).
  rewrite String.eqb_eq. split; [intros -> | intros [= ->]]; reflexivity.
Qed.

Lemma FilterByLevel_spec (level : string) (log : LogEntry) :
  FilterByLevel level log = true <-> log !! "level" = Some (JString level).
Proof.
  unfold FilterByLevel. destruct (log !! "level") as [l|].
  - rewrite iface_eq_string_spec. split; [intros -> | intros [= ->]]; reflexivity.
  - split; discriminate.
Qed.

Lemma retain_from (f : FilterFunc) (logs acc : list LogEntry) :
  fold_left (fun filtered log => if f log then filtered ++ [log] else filtered) logs acc
  = acc ++ List.filter f logs.
Proof.
  revert acc. induction logs as [|log logs IH]; intros acc; simpl.
  - now rewrite app_nil_r.
  - rewrite IH. destruct (f log); [now rewrite <- app_assoc | reflexivity].
Qed.

(** The retention loop keeps the records the predicate accepts, in their
    order and as often as they occur. *)
Lemma retain_filter (f : FilterFunc) (logs : list LogEntry) :
  retain f logs = List.filter f logs.
Proof. unfold retain. now rewrite retain_from. Qed.

Lemma filter_twice (f : FilterFunc) (logs : list LogEntry) :
  List.filter f (List.filter f logs) = List.filter f logs.
Proof.
  induction logs as [|log logs IH]; simpl; [reflexivity|].
  destruct (f log) eqn:E; simpl; [rewrite E, IH | rewrite IH]; reflexivity.
Qed.

(** C5: the predicate of [FilterByLevel L] holds exactly when the record
    has a "level" field that is the string [L], byte for byte; a record
    without a "level" field does not match; and of four records with the
    levels info, warn, error, error, [FilterByLevel "error"] retains the
    last two and nothing else. *)
Theorem C5_filter_by_level_exact (L : string) (log r1 r2 r3 r4 : LogEntry)
    (H1 : r1 !! "level" = Some (JString "info"))
    (H2 : r2 !! "level" = Some (JString "warn"))
    (H3 : r3 !! "level" = Some (JString "error"))
    (H4 : r4 !! "level" = Some (JString "error")) :
  (FilterByLevel L log = true <-> log !! "level" = Some (JString L))
  /\ (log !! "level" = None -> FilterByLevel L log = false)
  /\ retain (FilterByLevel "error") [r1; r2; r3; r4] = [r3; r4].
Proof.
  split; [apply FilterByLevel_spec|]. split.
  - intros Hnone. unfold FilterByLevel. now rewrite Hnone.
  - rewrite retain_filter. unfold FilterByLevel. simpl.
    now rewrite H1, H2, H3, H4.
Qed.

Lemma C5_filter_by_level_exact_witness :
  retain (FilterByLevel "error")
    [ {[ "level" := JString "info" ]}; {[ "level" := JString "warn" ]};
      {[ "level" := JString "error"; "message" := JString "a" ]};
      {[ "level" := JString "error"; "message" := JString "b" ]} ]
  = [ {[ "level" := JString "error"; "message" := JString "a" ]};
      {[ "level" := JString "error"; "message" := JString "b" ]} ].
Proof.
  apply (C5_filter_by_level_exact "error" ∅); reflexivity.
Defined.

(** C10: a record whose "level" field holds a value that is not a string
    never satisfies [FilterByLevel L]; it is treated like the record with
    the field removed. *)
Theorem C10_non_string_level_never_matches (L : string) (log : LogEntry) (v : JValue)
    (Hv : log !! "level" = Some v) (Hns : forall s, v <> JString s) :
  FilterByLevel L log = false
  /\ FilterByLevel L log = FilterByLevel L (delete "level" log).
Proof.
  assert (Hf : FilterByLevel L log = false).
  { unfold FilterByLevel. rewrite Hv.
    destruct v; try reflexivity. now destruct (Hns s). }
  split; [exact Hf|]. rewrite Hf. unfold FilterByLevel.
  now rewrite lookup_delete_eq.
Qed.

Lemma C10_non_string_level_never_matches_witness :
  FilterByLevel "3" {[ "level" := JNumber "3" ]} = false
  /\ FilterByLevel "3" {[ "level" := JNumber "3" ]}
     = FilterByLevel "3" (delete "level" {[ "level" := JNumber "3" ]}).
Proof.
  apply (C10_non_string_level_never_matches "3" _ (JNumber "3"));
    [reflexivity | discriminate].
Defined.

(** C6: retaining by [FilterByLevel L] twice is retaining once, and what
    is retained is the sublist of the records whose "level" is [L]. *)
Theorem C6_filter_by_level_idempotent (L : string) (logs : list LogEntry) :
  retain (FilterByLevel L) (retain (FilterByLevel L) logs)
  = retain (FilterByLevel L) logs
  /\ retain (FilterByLevel L) logs = List.filter (FilterByLevel L) logs
  /\ forall r : LogEntry,
       In r (retain (FilterByLevel L) logs)
       <-> In r logs /\ r !! "level" = Some (JString L).
Proof.
  rewrite !retain_filter. split; [apply filter_twice|].
  split; [reflexivity|]. intros r.
  rewrite filter_In, FilterByLevel_spec. reflexivity.
Qed.

(** ** Level dispatch *)


(** The six entry points are told apart by the entry they write. *)
Lemma entry_points_differ (Field : Type) (l : Logger) (message : string)
    (fields : list Field) (core : zapcore_Core) :
  zapLogger l = [core] -> core_enab core = zap_DebugLevel ->
  List.NoDup (map (fun log => log message fields [])
             [Debug Field l; Info Field l; Warn Field l;
              Error Field l; Fatal Field l; Panic Field l]).
Proof.
  intros Hz Hen.
  unfold Debug, Info, Warn, Error, Fatal, Panic, zap_log.
  rewrite Hz. simpl. rewrite Hen. simpl.
  repeat (constructor; [simpl; intuition discriminate|]). constructor.
Qed.



(** ** Construction *)

(** C3: a logger that [NewLogger] returns writes to a file destination
    with the thresholds 100 megabytes, 3 backups and 28 days, whatever the
    [Config]; the [RotationSize] of the [Config] changes nothing of the
    result. *)
Theorem C3_rotation_thresholds_fixed (filepath_Join : string -> string -> string)
    (os : Faults) (config : Config) (l : Logger)
    (Hok : NewLogger filepath_Join os config = inr l) :
  fileLogger l
  = {| Filename := filePath l; MaxSize := 100; MaxBackups := 3; MaxAge := 28 |}
  /\ In (NewCore (NewJSONEncoder encoderConfig) (FileSync (fileLogger l)) zap_DebugLevel)
        (zapLogger l)
  /\ forall n : Z, NewLogger filepath_Join os (with_RotationSize config n) = inr l.
Proof.
  unfold NewLogger in *. simpl.
  destruct (String.eqb (LogPath config) ""); [discriminate|].
  destruct (os_MkdirAll os (LogPath config)); [discriminate|].
  injection Hok as <-. simpl. split; [reflexivity|]. split; [|reflexivity].
  destruct (EnableConsoleOutput config); simpl; auto.
Qed.

Lemma C3_rotation_thresholds_fixed_witness :
  let l := {| zapLogger := [NewCore (NewJSONEncoder encoderConfig)
                              (FileSync (mkLumberjack "logs/app.log" 100 3 28))
                              zap_DebugLevel];
              filePath := "logs/app.log";
              fileLogger := mkLumberjack "logs/app.log" 100 3 28 |} in
  NewLogger join_with_slash no_faults (mkConfig "logs" "" false true 5) = inr l
  /\ forall n : Z,
       NewLogger join_with_slash no_faults
         (with_RotationSize (mkConfig "logs" "" false true 5) n) = inr l.
Proof.
  intros l. split; [reflexivity|].
  apply (C3_rotation_thresholds_fixed join_with_slash no_faults
           (mkConfig "logs" "" false true 5) l). reflexivity.
Defined.

(** ** Filtering by time range *)

Lemma first_parse_layouts (time_Parse : string -> string -> option Time) (ts : string) :
  first_parse time_Parse timestamp_layouts ts
  = match time_Parse RFC3339Nano ts with
    | Some t => Some t
    | None =>
      match time_Parse "2006-01-02T15:04:05.000-0700" ts with
      | Some t => Some t
      | None => time_Parse "2006-01-02T15:04:05.000Z0700" ts
      end
    end.
Proof.
  unfold timestamp_layouts. simpl.
  destruct (time_Parse RFC3339Nano ts); [reflexivity|].
  destruct (time_Parse "2006-01-02T15:04:05.000-0700" ts); [reflexivity|].
  destruct (time_Parse "2006-01-02T15:04:05.000Z0700" ts); reflexivity.
Qed.

Lemma FilterByTimeRange_first_parse (time_Parse : string -> string -> option Time)
    (start end_ : Time) (log : LogEntry) (ts : string) :
  log !! "timestamp" = Some (JString ts) ->
  FilterByTimeRange time_Parse start end_ log
  = match first_parse time_Parse timestamp_layouts ts with
    | Some t => After t start && Before t end_
    | None => false
    end.
Proof.
  intros Hts. unfold FilterByTimeRange. rewrite Hts, first_parse_layouts.
  destruct (time_Parse RFC3339Nano ts); [reflexivity|].
  destruct (time_Parse "2006-01-02T15:04:05.000-0700" ts); [reflexivity|].
  destruct (time_Parse "2006-01-02T15:04:05.000Z0700" ts); reflexivity.
Qed.

(** C2: the predicate of [FilterByTimeRange start end] holds exactly when
    the "timestamp" field is a string, the first of the three formats
    (RFC3339Nano, then the two millisecond formats without a colon in the
    offset) that parses it gives a time [t], and [start < t < end]; a
    record whose timestamp is absent, not a string or parsed by none of
    the formats does not match.  The predicate is a total function. *)
Theorem C2_filter_by_time_range (time_Parse : string -> string -> option Time)
    (start end_ : Time) (log : LogEntry) :
  timestamp_layouts
  = ["2006-01-02T15:04:05.999999999Z07:00";
     "2006-01-02T15:04:05.000-0700"; "2006-01-02T15:04:05.000Z0700"]
  /\ (FilterByTimeRange time_Parse start end_ log = true
      <-> in_time_range_spec time_Parse start end_ log)
  /\ (log !! "timestamp" = None
      \/ (exists v, log !! "timestamp" = Some v /\ forall s, v <> JString s)
      \/ (exists ts, log !! "timestamp" = Some (JString ts)
                     /\ Forall (fun layout => time_Parse layout ts = None)
                               timestamp_layouts)
      -> FilterByTimeRange time_Parse start end_ log = false).
Proof.
  split; [reflexivity|]. split.
  - unfold in_time_range_spec. split.
    + intros Hf. destruct (log !! "timestamp") as [v|] eqn:Hts;
        [|unfold FilterByTimeRange in Hf; rewrite Hts in Hf; discriminate].
      destruct v; try (unfold FilterByTimeRange in Hf; rewrite Hts in Hf; discriminate).
      rewrite (FilterByTimeRange_first_parse _ _ _ _ _ Hts) in Hf.
      destruct (first_parse time_Parse timestamp_layouts s) as [t|] eqn:Hp;
        [|discriminate].
      apply andb_prop in Hf as [Ha Hb]. unfold After, Before in *.
      exists s, t. repeat split; try assumption; lia.
    + intros (ts & t & Hts & Hp & H1 & H2).
      rewrite (FilterByTimeRange_first_parse _ _ _ _ _ Hts), Hp.
      unfold After, Before. apply andb_true_intro. split; lia.
  - intros [Hnone | [(v & Hv & Hns) | (ts & Hts & Hall)]].
    + unfold FilterByTimeRange. now rewrite Hnone.
    + unfold FilterByTimeRange. rewrite Hv.
      destruct v; try reflexivity. now destruct (Hns s).
    + rewrite (FilterByTimeRange_first_parse _ _ _ _ _ Hts), first_parse_layouts.
      unfold timestamp_layouts in Hall.
      inversion Hall as [|? ? P1 Hall1]; subst.
      inversion Hall1 as [|? ? P2 Hall2]; subst.
      inversion Hall2 as [|? ? P3 _]; subst.
      now rewrite P1, P2, P3.
Qed.

Lemma C2_filter_by_time_range_witness :
  FilterByTimeRange parse_one_timestamp 0%Z 5%Z {[ "timestamp" := JString "yesterday" ]}
  = false
  /\ FilterByTimeRange parse_one_timestamp 1764662397000000000%Z 1764662398000000000%Z
       {[ "timestamp" := JString "2025-12-02T15:59:57.317+0800" ]} = true.
Proof.
  split.
  - apply (proj2 (proj2 (C2_filter_by_time_range parse_one_timestamp 0%Z 5%Z _))).
    right; right. exists "yesterday". split; [reflexivity|].
    repeat constructor.
  - apply (proj1 (proj2 (C2_filter_by_time_range parse_one_timestamp _ _ _))).
    exists "2025-12-02T15:59:57.317+0800", 1764662397317000000%Z.
    repeat split; try reflexivity.
Defined.

(** The bounds are exclusive. *)
Example FilterByTimeRange_bounds_exclusive :
  let log : LogEntry := {[ "timestamp" := JString "2025-12-02T15:59:57.317+0800" ]} in
  FilterByTimeRange parse_one_timestamp 1764662397317000000%Z 1764662398000000000%Z log
  = false
  /\ FilterByTimeRange parse_one_timestamp 1764662397000000000%Z 1764662397317000000%Z log
     = false.
Proof. split; reflexivity. Qed.

(** ** Filtered reading *)

(** C4: [ReadCompressedLogsFiltered path filter] returns the records of
    [ReadCompressedLogs path] that satisfy [filter], in their order and
    with their repetitions; it returns an error exactly when
    [ReadCompressedLogs] does, and the same one; and it is still running
    exactly as long as [ReadCompressedLogs] is. *)
Theorem C4_filtered_is_read_then_filter
    (gzip_NewReader : string -> io_error + (string * io_error))
    (fuel : nat) (os : Faults) (fs : FileSystem) (path : string) (filter : FilterFunc) :
  ReadCompressedLogsFiltered gzip_NewReader fuel os fs path filter
  = match ReadCompressedLogs gzip_NewReader fuel os fs path with
    | None => None
    | Some (inl err) => Some (inl err)
    | Some (inr logs) => Some (inr (List.filter filter logs))
    end
  /\ forall err : error,
       ReadCompressedLogsFiltered gzip_NewReader fuel os fs path filter = Some (inl err)
       <-> ReadCompressedLogs gzip_NewReader fuel os fs path = Some (inl err).
Proof.
  unfold ReadCompressedLogsFiltered.
  destruct (ReadCompressedLogs gzip_NewReader fuel os fs path) as [[err0|logs]|].
  - split; [reflexivity|]. intros err. reflexivity.
  - rewrite retain_filter. split; [reflexivity|].
    intros err. split; discriminate.
  - split; [reflexivity|]. intros err. split; discriminate.
Qed.

(** Written at the levels info, warn, error, error and read back with
    [FilterByLevel "error"]: the two error records. *)
Example four_levels_filtered_by_error :
  ReadCompressedLogsFiltered toy_gzip_NewReader 5 no_faults
    {[ "logs/app.log.gz" := toy_gzip_encode four_levels ]} "logs/app.log.gz"
    (FilterByLevel "error")
  = Some (inr [ {[ "level" := JString "error"; "message" := JString "c" ]};
                {[ "level" := JString "error"; "message" := JString "d" ]} ]).
Proof. vm_compute. reflexivity. Qed.

Example missing_archive_is_an_error (fuel : nat) :
  ReadCompressedLogsFiltered toy_gzip_NewReader fuel no_faults ∅ "logs/app.log.gz"
    (FilterByLevel "error")
  = Some (inl (Errorf "failed to open compressed file: "
                 (PathError "open" "logs/app.log.gz" ENOENT))).
Proof. reflexivity. Qed.

(** ** Compression *)

Lemma append_length (s t : string) :
  String.length (s +:+ t) = (String.length s + String.length t)%nat.
Proof. induction s as [|c s IH]; simpl; [reflexivity | now rewrite IH]. Qed.

Lemma gz_path_differs (path : string) : path +:+ ".gz" <> path.
Proof.
  intros Heq. apply (f_equal String.length) in Heq.
  rewrite append_length in Heq. simpl in Heq. lia.
Qed.

(** C7: when the source log file exists, [CompressLogFile] leaves its
    bytes as they were, whether it succeeds or fails, and touches no path
    but the source path with ".gz" appended; when it returns [nil] that
    path holds the gzip stream of the source, whatever was there before;
    and it returns [nil] when no I/O step fails. *)
Theorem C7_compress_keeps_source (gzip_encode : string -> string)
    (os : Faults) (l : Logger) (fs : FileSystem) (source : string)
    (Hsrc : fs !! filePath l = Some source) :
  let (result, fs') := CompressLogFile gzip_encode os l fs in
  fs' !! filePath l = Some source
  /\ (forall path, path <> filePath l +:+ ".gz" -> fs' !! path = fs !! path)
  /\ (result = None -> fs' !! (filePath l +:+ ".gz") = Some (gzip_encode source))
  /\ (compress_fault_free os l -> result = None).
Proof.
  pose proof (gz_path_differs (filePath l)) as Hne.
  unfold CompressLogFile, os_Stat, os_Open, os_Create, compress_fault_free.
  rewrite Hsrc.
  destruct (stat_fault os (filePath l)) eqn:Hstat.
  { repeat split; try done. intros (? & _); discriminate. }
  destruct (open_fault os (filePath l)) eqn:Hopen.
  { repeat split; try done. intros (_ & ? & _); discriminate. }
  destruct (create_fault os (filePath l +:+ ".gz")) eqn:Hcreate.
  { repeat split; try done. intros (_ & _ & ? & _); discriminate. }
  destruct (copy_fault os) eqn:Hcopy.
  { split; [by rewrite !lookup_insert_ne|]. split.
    - intros path Hp. by rewrite !lookup_insert_ne.
    - split; [done|]. intros (_ & _ & _ & ? & _); discriminate. }
  destruct (flush_fault os) eqn:Hflush.
  { split; [by rewrite !lookup_insert_ne|]. split.
    - intros path Hp. by rewrite !lookup_insert_ne.
    - split; [done|]. intros (_ & _ & _ & _ & ?); discriminate. }
  split; [by rewrite !lookup_insert_ne|]. split.
  - intros path Hp. by rewrite !lookup_insert_ne.
  - split; [|done]. intros _. by rewrite lookup_insert_eq.
Qed.

Lemma C7_compress_keeps_source_witness :
  let l := mkLogger [] "logs/app.log" (mkLumberjack "logs/app.log" 100 3 28) in
  let fs : FileSystem := {[ "logs/app.log" := "line"; "logs/app.log.gz" := "old" ]} in
  let (result, fs') := CompressLogFile toy_gzip_encode no_faults l fs in
  fs' !! "logs/app.log" = Some "line"
  /\ (forall path, path <> "logs/app.log.gz" -> fs' !! path = fs !! path)
  /\ (result = None -> fs' !! "logs/app.log.gz" = Some (toy_gzip_encode "line"))
  /\ (compress_fault_free no_faults l -> result = None).
Proof.
  intros l fs.
  exact (C7_compress_keeps_source toy_gzip_encode no_faults l fs "line" eq_refl).
Defined.

Example CompressLogFile_overwrites :
  CompressLogFile toy_gzip_encode no_faults
    (mkLogger [] "logs/app.log" (mkLumberjack "logs/app.log" 100 3 28))
    {[ "logs/app.log" := "line"; "logs/app.log.gz" := "old" ]}
  = (None, {[ "logs/app.log" := "line";
              "logs/app.log.gz" := toy_gzip_encode "line" ]}).
Proof. vm_compute. reflexivity. Qed.



(** ** The decoder on small inputs *)

Example unquote_surrogate_pair :
  unquote "\ud83d\ude00" = EncodeRune 128512.
Proof. vm_compute. reflexivity. Qed.

Example unquote_lone_surrogate :
  unquote "\ud83dA" = ReplacementChar +:+ "A".
Proof. vm_compute. reflexivity. Qed.

Example Decode_last_key_wins :
  fst (Decode (NewDecoder (json_text "{'a':1,'a':2}") io_EOF))
  = inr {[ "a" := JNumber "2" ]}.
Proof. vm_compute. reflexivity. Qed.

Example Decode_number_out_of_range :
  Decode (NewDecoder (json_text "{'a':1e999} {}") io_EOF)
  = (inl UnmarshalTypeError, {| buf := " {}"; rd_end := io_EOF; err := None |}).
Proof. vm_compute. reflexivity. Qed.

Example Decode_largest_float64 :
  fst (Decode (NewDecoder (json_text "{'a':1.7976931348623158e308}") io_EOF))
  = inr {[ "a" := JNumber "1.7976931348623158e308" ]}.
Proof. vm_compute. reflexivity. Qed.

Example Decode_trailing_comma :
  Decode (NewDecoder (json_text "{'a':1,}") io_EOF)
  = (inl SyntaxError,
     {| buf := json_text "{'a':1,}"; rd_end := io_EOF; err := Some SyntaxError |}).
Proof. vm_compute. reflexivity. Qed.

Example Decode_adjacent_values :
  snd (Decode (NewDecoder "12abc" io_EOF))
  = {| buf := "abc"; rd_end := io_EOF; err := None |}.
Proof. vm_compute. reflexivity. Qed.

(** ** The decoding loop *)

Lemma skipSpace_idem (s : string) : skipSpace (skipSpace s) = skipSpace s.
Proof.
  induction s as [|c r IH]; simpl; [reflexivity|].
  destruct (isSpace c) eqn:E; [exact IH|]. simpl. now rewrite E.
Qed.

Lemma skipSpace_length (s : string) :
  (String.length (skipSpace s) <= String.length s)%nat.
Proof.
  induction s as [|c r IH]; simpl; [lia|].
  destruct (isSpace c); simpl; lia.
Qed.

(** [More] reports another element: the buffer now starts at a byte that
    is neither white space nor a closing bracket. *)
Lemma More_true (dec dec' : Decoder) :
  More dec = (true, dec') ->
  exists c r,
    skipSpace (buf dec) = String c r
    /\ dec' = {| buf := String c r; rd_end := rd_end dec; err := err dec |}
    /\ More dec' = (true, dec').
Proof.
  unfold More. destruct (skipSpace (buf dec)) as [|c r] eqn:Hs; [discriminate|].
  intros [= Hb <-]. exists c, r. split; [reflexivity|]. split; [reflexivity|].
  assert (Hi : skipSpace (String c r) = String c r)
    by (rewrite <- Hs; apply skipSpace_idem).
  cbn [buf rd_end err]. rewrite Hi, Hb. reflexivity.
Qed.

(** Once [dec.err] is set and [More] still reports an element, the loop
    turns forever: [Decode] returns the kept error, nothing is consumed,
    and [More] answers as before. *)
Lemma decodeLoop_sticky (fuel : nat) (dec : Decoder) (logs : list LogEntry)
    (e : json_error) :
  err dec = Some e -> fst (More dec) = true -> decodeLoop fuel dec logs = None.
Proof.
  revert dec. induction fuel as [|fuel IH]; intros dec He Hm; [reflexivity|].
  cbn [decodeLoop]. destruct (More dec) as [more dec'] eqn:HM.
  simpl in Hm. subst more.
  destruct (More_true _ _ HM) as (c & r & _ & Hd & HM').
  assert (He' : err dec' = Some e) by (subst dec'; exact He).
  unfold Decode. rewrite He'. apply IH; [exact He'|]. now rewrite HM'.
Qed.

(** A value that cannot be read sets [dec.err] and leaves the input in
    place: from then on the loop never ends. *)
Lemma decodeLoop_read_error (fuel : nat) (dec dec' : Decoder) (logs : list LogEntry)
    (e : json_error) :
  More dec = (true, dec') -> err dec = None ->
  readValue (buf dec') (rd_end dec') reset (buf dec') = readErr e ->
  decodeLoop fuel dec logs = None.
Proof.
  intros HM He Hr. destruct fuel as [|fuel]; [reflexivity|].
  cbn [decodeLoop]. rewrite HM.
  destruct (More_true _ _ HM) as (c & r & _ & Hd & HM').
  assert (He' : err dec' = None) by (subst dec'; exact He).
  unfold Decode. rewrite He', Hr.
  apply (decodeLoop_sticky _ _ _ e); [reflexivity|].
  unfold More in *. cbn [buf] in *.
  destruct (skipSpace (buf dec')); [discriminate|].
  now injection HM' as ->.
Qed.

(** More fuel does not change an answer. *)
Lemma decodeLoop_mono (n m : nat) (dec : Decoder) (logs result : list LogEntry) :
  (n <= m)%nat -> decodeLoop n dec logs = Some result ->
  decodeLoop m dec logs = Some result.
Proof.
  revert m dec logs. induction n as [|n IH]; intros m dec logs Hle Hn;
    [discriminate|].
  destruct m as [|m]; [lia|]. cbn [decodeLoop] in *.
  destruct (More dec) as [[|] dec1]; [|exact Hn].
  destruct (Decode dec1) as [[?|?] dec2]; apply IH; (lia || exact Hn).
Qed.

Lemma readValue_rest_le (all : string) (e : io_error) (input : string) :
  forall (s : scanner) (v : JValue) (saved : bool) (rest : string),
    readValue all e s input = readOk v saved rest ->
    (String.length rest <= String.length input)%nat.
Proof.
  induction input as [|c r IH]; intros s v saved rest; cbn [readValue].
  - destruct e; try discriminate.
    destruct (scan_step s " "); try discriminate.
    intros [= _ _ <-]. reflexivity.
  - destruct (scan_step s c) as [s'| | |]; try discriminate.
    + intros H. apply IH in H. simpl. lia.
    + intros [= _ _ <-]. reflexivity.
    + intros [= _ _ <-]. simpl. lia.
Qed.

Lemma scan_step_reset (c : ascii) :
  (exists s, scan_step reset c = scanContinue s) \/ scan_step reset c = scanError.
Proof.
  unfold scan_step, reset, stateBeginValue_step, pushParseState, goto. cbn [step].
  repeat match goal with
  | |- context [if ?b then _ else _] => destruct b; [left; eexists; reflexivity|]
  end.
  right. reflexivity.
Qed.

(** A value that was read took at least one byte. *)
Lemma readValue_consumes (all : string) (e : io_error) (input : string)
    (v : JValue) (saved : bool) (rest : string) :
  readValue all e reset input = readOk v saved rest ->
  (String.length rest < String.length input)%nat.
Proof.
  destruct input as [|c r]; cbn [readValue].
  - destruct e; discriminate.
  - destruct (scan_step_reset c) as [[s ->] | ->]; [|discriminate].
    intros H. apply readValue_rest_le in H. simpl. lia.
Qed.

(** Every run of the loop has an outcome: it returns within as many
    turns as the input has bytes, plus one, or it never returns. *)
Theorem decodeLoop_returns_or_never (n : nat) :
  forall (dec : Decoder) (logs : list LogEntry),
    (String.length (buf dec) <= n)%nat ->
    (exists result, decodeLoop (S n) dec logs = Some result)
    \/ (forall fuel, decodeLoop fuel dec logs = None).
Proof.
  induction n as [|n IH]; intros dec logs Hlen.
  - left. cbn [decodeLoop]. unfold More.
    destruct (buf dec); [|simpl in Hlen; lia]. simpl. eauto.
  - destruct (More dec) as [[|] dec1] eqn:HM.
    2:{ left. cbn [decodeLoop]. rewrite HM. eauto. }
    destruct (More_true _ _ HM) as (c & r & Hs & Hd & HM').
    destruct (err dec) as [e|] eqn:He.
    { right. intros fuel. apply (decodeLoop_sticky _ _ _ e); [exact He|].
      now rewrite HM. }
    destruct (readValue (buf dec1) (rd_end dec1) reset (buf dec1))
      as [v saved rest|e] eqn:Hr.
    2:{ right. intros fuel. now apply (decodeLoop_read_error _ _ dec1 _ e). }
    assert (He1 : err dec1 = None) by (subst dec1; reflexivity).
    assert (Hrest : (String.length rest <= n)%nat).
    { apply readValue_consumes in Hr. subst dec1. cbn [buf] in Hr.
      pose proof (skipSpace_length (buf dec)) as Hk. rewrite Hs in Hk. lia. }
    assert (HD : Decode dec1
                 = (unmarshal v saved,
                    {| buf := rest; rd_end := rd_end dec1; err := None |})).
    { unfold Decode. now rewrite He1, Hr. }
    set (dec2 := {| buf := rest; rd_end := rd_end dec1; err := None |}) in *.
    set (logs2 := match unmarshal v saved with
                  | inl _ => logs | inr logEntry => logs ++ [logEntry] end).
    assert (Hstep : forall fuel,
               decodeLoop (S fuel) dec logs = decodeLoop fuel dec2 logs2).
    { intros fuel. cbn [decodeLoop]. rewrite HM, HD. unfold logs2.
      destruct (unmarshal v saved); reflexivity. }
    destruct (IH dec2 logs2 Hrest) as [[result Hres] | Hnever].
    + left. exists result. now rewrite Hstep.
    + right. intros [|fuel]; [reflexivity|]. now rewrite Hstep.
Qed.

(** ** A malformed line *)

(** C1 (fails on the code): on an archive of three lines whose second
    line is no JSON, [ReadCompressedLogs] never returns, however many
    times the loop turns, while on the archive without that line it
    returns the two records.  The scanner's error is kept in the decoder,
    the line is not consumed, and [More] keeps reporting it. *)
Theorem C1_malformed_line_never_returns
    (gzip_NewReader : string -> io_error + (string * io_error))
    (os : Faults) (fs : FileSystem) (path clean_path archive clean_archive : string)
    (Hopen : os_Open os fs path = inr archive)
    (Hgz : gzip_NewReader archive = inr (lines_with_malformed, io_EOF))
    (Hopen' : os_Open os fs clean_path = inr clean_archive)
    (Hgz' : gzip_NewReader clean_archive = inr (lines_without_malformed, io_EOF)) :
  ReadCompressedLogs gzip_NewReader 3 os fs clean_path
  = Some (inr [info_record; warn_record])
  /\ forall fuel : nat, ReadCompressedLogs gzip_NewReader fuel os fs path = None.
Proof.
  unfold ReadCompressedLogs. rewrite Hopen, Hgz, Hopen', Hgz'. split.
  - vm_compute. reflexivity.
  - intros fuel.
    destruct (decodeLoop_returns_or_never (String.length lines_with_malformed)
                (NewDecoder lines_with_malformed io_EOF) [] (le_n _))
      as [[result Hres] | Hnever].
    + vm_compute in Hres. discriminate.
    + now rewrite Hnever.
Qed.

Lemma C1_malformed_line_never_returns_witness :
  let fs : FileSystem :=
    {[ "logs/app.log.gz" := toy_gzip_encode lines_with_malformed;
       "logs/clean.log.gz" := toy_gzip_encode lines_without_malformed ]} in
  ReadCompressedLogs toy_gzip_NewReader 3 no_faults fs "logs/clean.log.gz"
  = Some (inr [info_record; warn_record])
  /\ forall fuel : nat,
       ReadCompressedLogs toy_gzip_NewReader fuel no_faults fs "logs/app.log.gz" = None.
Proof.
  intros fs.
  apply (C1_malformed_line_never_returns toy_gzip_NewReader no_faults fs
           "logs/app.log.gz" "logs/clean.log.gz"
           (toy_gzip_encode lines_with_malformed)
           (toy_gzip_encode lines_without_malformed));
    reflexivity.
Defined.

(** A line that is well-formed JSON but no object is skipped. *)
Example array_line_is_skipped :
  decodeLoop 4
    (NewDecoder (info_line +:+ LF +:+ "[1,2]" +:+ LF +:+ warn_line +:+ LF) io_EOF) []
  = Some [info_record; warn_record].
Proof. vm_compute. reflexivity. Qed.

(** A line [null] decodes without error and adds a nil map. *)
Example null_line_is_a_record :
  decodeLoop 4
    (NewDecoder (info_line +:+ LF +:+ "null" +:+ LF +:+ warn_line +:+ LF) io_EOF) []
  = Some [info_record; ∅; warn_record].
Proof. vm_compute. reflexivity. Qed.

(** A line that starts with a closing bracket ends the read; the records
    after it are lost. *)
Example closing_bracket_line_ends_the_read :
  decodeLoop 2
    (NewDecoder (info_line +:+ LF +:+ "}" +:+ LF +:+ warn_line +:+ LF) io_EOF) []
  = Some [info_record].
Proof. vm_compute. reflexivity. Qed.

(** A line cut off inside a string: the loop never ends. *)
Example truncated_line_never_returns (fuel : nat) :
  decodeLoop fuel
    (NewDecoder (info_line +:+ LF +:+ json_text "{'level':'wa" +:+ LF
                 +:+ warn_line +:+ LF) io_EOF) []
  = None.
Proof.
  match goal with |- decodeLoop _ ?d _ = _ =>
    destruct (decodeLoop_returns_or_never (String.length (buf d)) d [] (le_n _))
      as [[result Hres] | Hnever]
  end.
  - vm_compute in Hres. discriminate.
  - apply Hnever.
Qed.

(** * Further properties *)

(** ** Reading well-formed lines *)

Lemma popParseState_inside (v : JValue) (ps : list Frame) (saved : bool) :
  stays_inside (popParseState v ps saved).
Proof. destruct ps; simpl; [exact I | discriminate]. Qed.

Lemma stateEndValue_step_inside (v : JValue) (s : scanner) (c : ascii) :
  parseState s <> [] -> stays_inside (stateEndValue_step v s c).
Proof.
  intros Hne. unfold stateEndValue_step, goto.
  destruct (parseState s) as [|f ps] eqn:Hps; [contradiction|].
  destruct (isSpace c); [simpl; discriminate|].
  destruct f; [destruct v|..];
    repeat match goal with
    | |- context [if ?b then _ else _] => destruct b
    end; simpl; try exact I; try discriminate; apply popParseState_inside.
Qed.

Lemma endNumber_inside (lit : string) (s : scanner) (c : ascii) :
  parseState s <> [] -> stays_inside (endNumber lit s c).
Proof.
  intros Hne. unfold endNumber.
  destruct (float64_overflows lit); apply stateEndValue_step_inside; assumption.
Qed.

Lemma scan_step_inside (s : scanner) (c : ascii) :
  parseState s <> [] -> stays_inside (scan_step s c).
Proof.
  intros Hne.
  assert (Hgoto : forall st, stays_inside (goto st s)) by (intros st; exact Hne).
  assert (Hpush : forall f st, stays_inside (pushParseState f st s)).
  { intros f st. unfold pushParseState.
    destruct (_ <=? _)%N; simpl; [discriminate | exact I]. }
  assert (Hsame : stays_inside (scanContinue s)) by exact Hne.
  unfold scan_step, stateBeginValue_step, stateBeginString_step, state0_step,
    stateESign_step.
  destruct (step s);
    repeat match goal with
    | |- stays_inside (if ?b then _ else _) => destruct b
    | |- stays_inside (match parseState s with _ => _ end) =>
      destruct (parseState s) as [|[] ?]
    | |- stays_inside (match ?r with EmptyString => _ | String _ _ => _ end) =>
      destruct r
    end;
    try exact I; try apply Hgoto; try apply Hpush; try exact Hsame;
    try apply popParseState_inside;
    try (apply stateEndValue_step_inside; exact Hne);
    try (apply endNumber_inside; exact Hne).
Qed.

(** A value closed by its own bracket is read the same whatever follows
    it and however the reader ends. *)
Lemma readValue_inside (all : string) (e : io_error) (input : string) :
  forall (s : scanner) (v : JValue) (saved : bool) (rest : string),
    parseState s <> [] ->
    readValue all e s input = readOk v saved rest ->
    forall (all' : string) (e' : io_error) (suffix : string),
      readValue all' e' s (input +:+ suffix) = readOk v saved (rest +:+ suffix).
Proof.
  induction input as [|c r IH]; intros s v saved rest Hne; cbn [readValue].
  - pose proof (scan_step_inside s " " Hne) as Hin.
    destruct e; try discriminate.
    destruct (scan_step s " "); try discriminate. destruct Hin.
  - pose proof (scan_step_inside s c Hne) as Hin.
    intros Hr all' e' suffix.
    change (String c r +:+ suffix) with (String c (r +:+ suffix)).
    cbn [readValue].
    destruct (scan_step s c) as [s'| | |]; try discriminate.
    + now apply IH.
    + destruct Hin.
    + now injection Hr as -> -> ->.
Qed.

Lemma append_assoc3 (a b c : string) : (a +:+ b) +:+ c = a +:+ (b +:+ c).
Proof.
  induction a as [|x a IH]; [reflexivity|].
  change (String x ((a +:+ b) +:+ c) = String x (a +:+ (b +:+ c))).
  now f_equal.
Qed.

(** A line that is an object, decoded from the front of a longer input. *)
Lemma Decode_object_line (line : string) (r : LogEntry) (suffix : string)
    (e : io_error) :
  object_line line r ->
  Decode {| buf := line +:+ suffix; rd_end := e; err := None |}
  = (inr r, {| buf := suffix; rd_end := e; err := None |}).
Proof.
  intros [[body ->] HD]. unfold Decode, NewDecoder in *. cbn [err buf rd_end] in *.
  destruct (readValue (String "{" body) io_EOF reset (String "{" body))
    as [v saved rest|e0] eqn:Hr; [|discriminate].
  injection HD as Hu ->.
  change (readValue (String "{" body) io_EOF
            {| step := stateBeginStringOrEmpty;
               parseState := [parseObjectKey ∅]; savedError := false |} body
          = readOk v saved "") in Hr.
  change (String "{" body +:+ suffix) with (String "{" (body +:+ suffix)).
  change (readValue (String "{" (body +:+ suffix)) e reset
            (String "{" (body +:+ suffix)))
    with (readValue (String "{" (body +:+ suffix)) e
            {| step := stateBeginStringOrEmpty;
               parseState := [parseObjectKey ∅]; savedError := false |}
            (body +:+ suffix)).
  assert (Hne : parseState {| step := stateBeginStringOrEmpty;
                              parseState := [parseObjectKey ∅];
                              savedError := false |} <> [])
    by (simpl; discriminate).
  rewrite (readValue_inside _ _ _ _ _ _ _ Hne Hr).
  now rewrite Hu.
Qed.

(** White space in front of the input does not change what the loop
    does. *)
Lemma decodeLoop_skipSpace (fuel : nat) (b : string) (e : io_error)
    (er : option json_error) (logs : list LogEntry) :
  decodeLoop fuel {| buf := b; rd_end := e; err := er |} logs
  = decodeLoop fuel {| buf := skipSpace b; rd_end := e; err := er |} logs.
Proof.
  destruct fuel as [|fuel]; [reflexivity|]. cbn [decodeLoop]. unfold More.
  cbn [buf rd_end err]. rewrite skipSpace_idem.
  destruct (skipSpace b); reflexivity.
Qed.

(** Lines that are objects are decoded one per turn, in their order; the
    loop then goes on with what follows them. *)
Lemma decodeLoop_object_lines (lines : list string) (records : list LogEntry) :
  Forall2 object_line lines records ->
  forall (k : nat) (e : io_error) (tail : string) (logs : list LogEntry),
    decodeLoop (length lines + k)
      {| buf := join_lines lines +:+ tail; rd_end := e; err := None |} logs
    = decodeLoop k {| buf := tail; rd_end := e; err := None |} (logs ++ records).
Proof.
  induction 1 as [|line r lines records Hline _ IH]; intros k e tail logs.
  - simpl. now rewrite app_nil_r.
  - cbn [length join_lines Nat.add].
    rewrite !append_assoc3.
    assert (HM : More {| buf := line +:+ LF +:+ join_lines lines +:+ tail;
                         rd_end := e; err := None |}
                 = (true, {| buf := line +:+ LF +:+ join_lines lines +:+ tail;
                             rd_end := e; err := None |})).
    { destruct Hline as [[body ->] _]. reflexivity. }
    cbn [decodeLoop]. rewrite HM, (Decode_object_line _ _ _ _ Hline).
    rewrite decodeLoop_skipSpace.
    change (skipSpace (LF +:+ join_lines lines +:+ tail))
      with (skipSpace (join_lines lines +:+ tail)).
    rewrite <- decodeLoop_skipSpace, IH, <- app_assoc. reflexivity.
Qed.

Lemma scan_step_reset_error (c : ascii) :
  isSpace c = false -> begins_value c = false -> scan_step reset c = scanError.
Proof.
  intros Hsp Hb. unfold begins_value in Hb.
  apply orb_false_elim in Hb as [Hb Hn]. apply orb_false_elim in Hb as [Hb Hf].
  apply orb_false_elim in Hb as [Hb Ht]. apply orb_false_elim in Hb as [Hb Hd].
  apply orb_false_elim in Hb as [Hb Hm]. apply orb_false_elim in Hb as [Hb Hq].
  apply orb_false_elim in Hb as [Ho Ha].
  assert (Hz : byte_is c "0" = false).
  { destruct (byte_is c "0") eqn:E; [|reflexivity].
    apply Ascii.eqb_eq in E. subst c. discriminate. }
  assert (H19 : isDigit19 c = false).
  { unfold isDigit, isDigit19, in_range in *.
    destruct (N.leb_spec 48 (code c)), (N.leb_spec (code c) 57),
      (N.leb_spec 49 (code c)); try reflexivity; try discriminate; lia. }
  unfold scan_step, reset, stateBeginValue_step. cbn [step].
  now rewrite Hsp, Ho, Ha, Hq, Hm, Hz, Ht, Hf, Hn, H19.
Qed.

(** What cannot begin a JSON value and is no closing bracket stops the
    loop from ever returning. *)
Lemma decodeLoop_garbage (fuel : nat) (e : io_error) (tail : string) (c : ascii)
    (r : string) (logs : list LogEntry) :
  skipSpace tail = String c r ->
  begins_value c = false -> byte_is c "]" = false -> byte_is c "}" = false ->
  decodeLoop fuel {| buf := tail; rd_end := e; err := None |} logs = None.
Proof.
  intros Hs Hb H1 H2.
  assert (Hsp : isSpace c = false).
  { destruct tail as [|x t]; [discriminate|].
    clear -Hs. revert x Hs. induction t as [|y t IH]; intros x; simpl.
    - destruct (isSpace x) eqn:E; [discriminate|]. now intros [= <- _].
    - destruct (isSpace x) eqn:E; [apply IH|]. now intros [= <- _]. }
  apply (decodeLoop_read_error _ _
           {| buf := String c r; rd_end := e; err := None |} _ SyntaxError).
  - unfold More. cbn [buf rd_end err]. now rewrite Hs, H1, H2.
  - reflexivity.
  - cbn [buf rd_end readValue]. now rewrite (scan_step_reset_error c Hsp Hb).
Qed.



(** X2: when the object lines are followed by a line that starts with a
    closing bracket, [ReadCompressedLogs] returns the records of the lines
    before it and no error; everything from that bracket on is dropped,
    whatever it is. *)
Theorem X2_read_stops_at_closing_bracket
    (gzip_NewReader : string -> io_error + (string * io_error))
    (os : Faults) (fs : FileSystem) (path archive : string)
    (lines : list string) (records : list LogEntry) (tail : string)
    (c : ascii) (dropped : string) (e : io_error)
    (Hopen : os_Open os fs path = inr archive)
    (Hgz : gzip_NewReader archive = inr (join_lines lines +:+ tail, e))
    (Hlines : Forall2 object_line lines records)
    (Htail : skipSpace tail = String c dropped)
    (Hc : c = "]"%char \/ c = "}"%char) :
  forall fuel, (length lines < fuel)%nat ->
    ReadCompressedLogs gzip_NewReader fuel os fs path = Some (inr records).
Proof.
  intros fuel Hfuel. unfold ReadCompressedLogs. rewrite Hopen, Hgz.
  assert (Hrun : decodeLoop (length lines + 1)
                   (NewDecoder (join_lines lines +:+ tail) e) []
                 = Some records).
  { unfold NewDecoder. rewrite (decodeLoop_object_lines _ _ Hlines).
    cbn [decodeLoop]. unfold More. cbn [buf]. rewrite Htail.
    destruct Hc as [-> | ->]; reflexivity. }
  rewrite (decodeLoop_mono (length lines + 1) fuel _ _ records); [reflexivity|lia|].
  exact Hrun.
Qed.

Lemma X2_read_stops_at_closing_bracket_witness :
    ReadCompressedLogs toy_gzip_NewReader 7 no_faults
      {[ "logs/app.log.gz" :=
           toy_gzip_encode (join_lines [info_line] +:+ "}" +:+ LF +:+ warn_line +:+ LF) ]}
      "logs/app.log.gz"
    = Some (inr [info_record]).
Proof.
  apply (X2_read_stops_at_closing_bracket toy_gzip_NewReader no_faults _
           "logs/app.log.gz"
           (toy_gzip_encode (join_lines [info_line] +:+ "}" +:+ LF +:+ warn_line +:+ LF))
           [info_line] [info_record] ("}" +:+ LF +:+ warn_line +:+ LF)
           "}"%char (LF +:+ warn_line +:+ LF) io_EOF).
  - reflexivity.
  - reflexivity.
  - repeat constructor; try (eexists; vm_compute; reflexivity);
      vm_compute; reflexivity.
  - reflexivity.
  - right. reflexivity.
  - simpl. lia.
Defined.

(** X3: when the object lines are followed by text whose first byte can
    neither begin a JSON value nor is a closing bracket,
    [ReadCompressedLogs] never returns, whatever comes after that byte
    and however many good lines stand before it. *)
Theorem X3_read_never_returns_on_garbage
    (gzip_NewReader : string -> io_error + (string * io_error))
    (os : Faults) (fs : FileSystem) (path archive : string)
    (lines : list string) (records : list LogEntry) (tail : string)
    (c : ascii) (after : string) (e : io_error)
    (Hopen : os_Open os fs path = inr archive)
    (Hgz : gzip_NewReader archive = inr (join_lines lines +:+ tail, e))
    (Hlines : Forall2 object_line lines records)
    (Htail : skipSpace tail = String c after)
    (Hvalue : begins_value c = false)
    (Hclose : byte_is c "]" = false /\ byte_is c "}" = false) :
  forall fuel, ReadCompressedLogs gzip_NewReader fuel os fs path = None.
Proof.
  intros fuel. unfold ReadCompressedLogs. rewrite Hopen, Hgz.
  destruct Hclose as [H1 H2].
  destruct (decodeLoop fuel (NewDecoder (join_lines lines +:+ tail) e) [])
    as [result|] eqn:Hrun; [|reflexivity].
  apply (decodeLoop_mono fuel (length lines + fuel)) in Hrun; [|lia].
  unfold NewDecoder in Hrun.
  rewrite (decodeLoop_object_lines _ _ Hlines) in Hrun.
  rewrite (decodeLoop_garbage _ _ _ c after _ Htail Hvalue H1 H2) in Hrun.
  discriminate.
Qed.

Lemma X3_read_never_returns_on_garbage_witness :
    ReadCompressedLogs toy_gzip_NewReader 1000 no_faults
      {[ "logs/app.log.gz" :=
           toy_gzip_encode (join_lines [info_line] +:+ "panic: disk full" +:+ LF) ]}
      "logs/app.log.gz"
    = None.
Proof.
  apply (X3_read_never_returns_on_garbage toy_gzip_NewReader no_faults _
           "logs/app.log.gz"
           (toy_gzip_encode (join_lines [info_line] +:+ "panic: disk full" +:+ LF))
           [info_line] [info_record] ("panic: disk full" +:+ LF)
           "p"%char ("anic: disk full" +:+ LF) io_EOF).
  - reflexivity.
  - reflexivity.
  - repeat constructor; try (eexists; vm_compute; reflexivity);
      vm_compute; reflexivity.
  - reflexivity.
  - reflexivity.
  - split; reflexivity.
Defined.

(** X4: the loop of [ReadCompressedLogs] decides itself within as many
    turns as the payload has bytes, plus one: what the call has not
    returned by then it never returns, and what it has returned stays. *)
Theorem X4_read_outcome_is_settled
    (gzip_NewReader : string -> io_error + (string * io_error))
    (os : Faults) (fs : FileSystem) (path archive data : string) (e : io_error)
    (Hopen : os_Open os fs path = inr archive)
    (Hgz : gzip_NewReader archive = inr (data, e)) :
  forall fuel, (String.length data < fuel)%nat ->
    ReadCompressedLogs gzip_NewReader fuel os fs path
    = ReadCompressedLogs gzip_NewReader (S (String.length data)) os fs path.
Proof.
  intros fuel Hfuel. unfold ReadCompressedLogs. rewrite Hopen, Hgz.
  destruct (decodeLoop_returns_or_never (String.length data) (NewDecoder data e) []
              (le_n _)) as [[result Hres] | Hnever].
  - rewrite Hres.
    now rewrite (decodeLoop_mono (S (String.length data)) fuel _ _ result
                   ltac:(lia) Hres).
  - now rewrite !Hnever.
Qed.

Lemma X4_read_outcome_is_settled_witness :
    ReadCompressedLogs toy_gzip_NewReader 1000 no_faults
      {[ "logs/app.log.gz" := toy_gzip_encode lines_with_malformed ]} "logs/app.log.gz"
    = ReadCompressedLogs toy_gzip_NewReader (S (String.length lines_with_malformed))
        no_faults
        {[ "logs/app.log.gz" := toy_gzip_encode lines_with_malformed ]} "logs/app.log.gz".
Proof.
  apply (X4_read_outcome_is_settled toy_gzip_NewReader no_faults _ "logs/app.log.gz"
           (toy_gzip_encode lines_with_malformed) lines_with_malformed io_EOF);
    [reflexivity | reflexivity | vm_compute; lia].
Defined.

(** X5: [ReadCompressedLogs] reports an error only for a file it cannot
    open or whose gzip header it cannot read; a missing file gives an
    error that wraps the not-exist error; once the header is read no
    error is ever returned, also when the gzip stream breaks off. *)
Theorem X5_read_errors
    (gzip_NewReader : string -> io_error + (string * io_error))
    (fuel : nat) (os : Faults) (fs : FileSystem) (path : string) :
  (fs !! path = None ->
   ReadCompressedLogs gzip_NewReader fuel os fs path
   = Some (inl (Errorf "failed to open compressed file: "
                  (PathError "open" path ENOENT)))
   /\ Is_ErrNotExist (Errorf "failed to open compressed file: "
                        (PathError "open" path ENOENT)) = true)
  /\ (forall err,
        ReadCompressedLogs gzip_NewReader fuel os fs path = Some (inl err) ->
        (exists cause, os_Open os fs path = inl cause
                       /\ err = Errorf "failed to open compressed file: " cause)
        \/ (exists archive e, os_Open os fs path = inr archive
                              /\ gzip_NewReader archive = inl e
                              /\ err = Errorf "failed to create gzip reader: "
                                         (GzipError e)))
  /\ (forall archive data e,
        os_Open os fs path = inr archive ->
        gzip_NewReader archive = inr (data, e) ->
        forall err, ReadCompressedLogs gzip_NewReader fuel os fs path <> Some (inl err)).
Proof.
  unfold ReadCompressedLogs. split; [|split].
  - intros Hnone. unfold os_Open. rewrite Hnone. split; reflexivity.
  - intros err. destruct (os_Open os fs path) as [cause|archive].
    + intros [= <-]. left. exists cause. split; reflexivity.
    + destruct (gzip_NewReader archive) as [e|[data e]] eqn:Hgz.
      * intros [= <-]. right. exists archive, e. repeat split; assumption.
      * destruct (decodeLoop _ _ _); discriminate.
  - intros archive data e -> -> err.
    destruct (decodeLoop _ _ _); discriminate.
Qed.

Lemma X5_read_errors_witness :
  ReadCompressedLogs toy_gzip_NewReader 3 no_faults ∅ "logs/app.log.gz"
  = Some (inl (Errorf "failed to open compressed file: "
                 (PathError "open" "logs/app.log.gz" ENOENT)))
  /\ Is_ErrNotExist (Errorf "failed to open compressed file: "
                       (PathError "open" "logs/app.log.gz" ENOENT)) = true.
Proof.
  apply (proj1 (X5_read_errors toy_gzip_NewReader 3 no_faults ∅ "logs/app.log.gz")).
  reflexivity.
Defined.

(** ** Compressing and reading back *)

Lemma CompressLogFile_fault_free (gzip_encode : string -> string) (os : Faults)
    (l : Logger) (fs : FileSystem) (source : string) :
  fs !! filePath l = Some source -> compress_fault_free os l ->
  CompressLogFile gzip_encode os l fs
  = (None, <[filePath l +:+ ".gz" := gzip_encode source]> fs).
Proof.
  intros Hsrc (Hstat & Hopen & Hcreate & Hcopy & Hflush).
  unfold CompressLogFile, os_Stat, os_Open, os_Create.
  rewrite Hsrc, Hstat, Hopen, Hcreate, Hcopy, Hflush.
  now rewrite insert_insert_eq.
Qed.

(** X6: with a gzip reader that undoes the gzip writer, a log file made
    of object lines that is compressed without an I/O fault is read back
    from its archive as the records of its lines, as many as there are
    lines and in their order, and filtered reading returns the records
    among them that satisfy the predicate. *)
Theorem X6_compress_then_read
    (gzip_encode : string -> string)
    (gzip_NewReader : string -> io_error + (string * io_error))
    (os : Faults) (l : Logger) (fs : FileSystem)
    (lines : list string) (records : list LogEntry) (filter : FilterFunc)
    (Hcodec : forall data, gzip_NewReader (gzip_encode data) = inr (data, io_EOF))
    (Hsrc : fs !! filePath l = Some (join_lines lines))
    (Hlines : Forall2 object_line lines records)
    (Hfree : compress_fault_free os l)
    (Hread : open_fault os (filePath l +:+ ".gz") = None) :
  let (result, fs') := CompressLogFile gzip_encode os l fs in
  result = None
  /\ ReadCompressedLogs gzip_NewReader (S (length lines)) os fs' (filePath l +:+ ".gz")
     = Some (inr records)
  /\ ReadCompressedLogsFiltered gzip_NewReader (S (length lines)) os fs'
       (filePath l +:+ ".gz") filter
     = Some (inr (List.filter filter records)).
Proof.
  rewrite (CompressLogFile_fault_free _ _ _ _ _ Hsrc Hfree).
  split; [reflexivity|].
  assert (Hrun : ReadCompressedLogs gzip_NewReader (S (length lines)) os
                   (<[filePath l +:+ ".gz" := gzip_encode (join_lines lines)]> fs)
                   (filePath l +:+ ".gz")
                 = Some (inr records)).
  { unfold ReadCompressedLogs, os_Open.
    rewrite lookup_insert_eq, Hread, Hcodec. unfold NewDecoder.
    pose proof (decodeLoop_object_lines _ _ Hlines 1 io_EOF "" []) as Hloop.
    replace (join_lines lines +:+ "") with (join_lines lines) in Hloop
      by (clear; induction (join_lines lines) as [|c s IH];
          [reflexivity | change (String c s = String c (s +:+ "")); now f_equal]).
    replace (length lines + 1)%nat with (S (length lines)) in Hloop by lia.
    now rewrite Hloop. }
  split; [exact Hrun|].
  unfold ReadCompressedLogsFiltered. now rewrite Hrun, retain_filter.
Qed.

Lemma X6_compress_then_read_witness :
  let l := mkLogger [] "logs/app.log" (mkLumberjack "logs/app.log" 100 3 28) in
  let (result, fs') :=
    CompressLogFile toy_gzip_encode no_faults l
      {[ "logs/app.log" := join_lines [info_line; warn_line] ]} in
  result = None
  /\ ReadCompressedLogs toy_gzip_NewReader 3 no_faults fs' "logs/app.log.gz"
     = Some (inr [info_record; warn_record])
  /\ ReadCompressedLogsFiltered toy_gzip_NewReader 3 no_faults fs' "logs/app.log.gz"
       (FilterByLevel "warn")
     = Some (inr (List.filter (FilterByLevel "warn") [info_record; warn_record])).
Proof.
  intros l.
  apply (X6_compress_then_read toy_gzip_encode toy_gzip_NewReader no_faults l
           {[ "logs/app.log" := join_lines [info_line; warn_line] ]}
           [info_line; warn_line] [info_record; warn_record] (FilterByLevel "warn")).
  - intros data. reflexivity.
  - reflexivity.
  - repeat constructor; try (eexists; vm_compute; reflexivity);
      vm_compute; reflexivity.
  - repeat split; reflexivity.
  - reflexivity.
Defined.

(** X7: compressing again, without an I/O fault, changes nothing: the
    second call returns [nil] and leaves the file system as the first left
    it. *)
Theorem X7_compress_twice (gzip_encode : string -> string) (os : Faults)
    (l : Logger) (fs : FileSystem) (source : string)
    (Hsrc : fs !! filePath l = Some source)
    (Hfree : compress_fault_free os l) :
  let (result, fs') := CompressLogFile gzip_encode os l fs in
  result = None /\ CompressLogFile gzip_encode os l fs' = (None, fs').
Proof.
  rewrite (CompressLogFile_fault_free _ _ _ _ _ Hsrc Hfree).
  split; [reflexivity|].
  rewrite (CompressLogFile_fault_free _ _ _ _ source); [|..|exact Hfree].
  - now rewrite insert_insert_eq.
  - rewrite lookup_insert_ne; [exact Hsrc | apply gz_path_differs].
Qed.

Lemma X7_compress_twice_witness :
  let l := mkLogger [] "logs/app.log" (mkLumberjack "logs/app.log" 100 3 28) in
  let (result, fs') :=
    CompressLogFile toy_gzip_encode no_faults l {[ "logs/app.log" := "line" ]} in
  result = None /\ CompressLogFile toy_gzip_encode no_faults l fs' = (None, fs').
Proof.
  intros l.
  apply (X7_compress_twice toy_gzip_encode no_faults l
           {[ "logs/app.log" := "line" ]} "line").
  - reflexivity.
  - repeat split; reflexivity.
Defined.

(** X8: an error of [CompressLogFile] carries one of five messages; when
    the log file is missing or cannot be examined, or the source or the
    archive cannot be opened, no file has changed; when copying or
    flushing fails the archive has already been created anew, so what it
    held before is gone. *)
Theorem X8_compress_failures (gzip_encode : string -> string) (os : Faults)
    (l : Logger) (fs fs' : FileSystem) (err : error)
    (Hrun : CompressLogFile gzip_encode os l fs = (Some err, fs')) :
  (In (Message err)
      ["log file not found: "; "failed to open source file: ";
       "failed to create compressed file: "]
   /\ fs' = fs)
  \/ (In (Message err) ["failed to compress: "; "failed to flush gzip writer: "]
      /\ fs' = <[filePath l +:+ ".gz" := fault_archive os]> fs).
Proof.
  unfold CompressLogFile in Hrun.
  destruct (os_Stat os fs (filePath l));
    [injection Hrun as <- <-; left; simpl; auto|].
  destruct (os_Open os fs (filePath l));
    [injection Hrun as <- <-; left; simpl; auto|].
  unfold os_Create in Hrun.
  destruct (create_fault os (filePath l +:+ ".gz"));
    [injection Hrun as <- <-; left; simpl; auto|].
  destruct (copy_fault os);
    [injection Hrun as <- <-; right; rewrite insert_insert_eq; simpl; auto|].
  destruct (flush_fault os);
    [injection Hrun as <- <-; right; rewrite insert_insert_eq; simpl; auto|].
  discriminate.
Qed.

Lemma X8_compress_failures_witness :
  let l := mkLogger [] "logs/app.log" (mkLumberjack "logs/app.log" 100 3 28) in
  let err := Errorf "failed to compress: " (PathError "copy" "logs/app.log.gz" ENOSPC) in
  let fs : FileSystem := {[ "logs/app.log" := "line"; "logs/app.log.gz" := "old" ]} in
  (In (Message err)
      ["log file not found: "; "failed to open source file: ";
       "failed to create compressed file: "]
   /\ <[ "logs/app.log.gz" := "" ]> fs = fs)
  \/ (In (Message err) ["failed to compress: "; "failed to flush gzip writer: "]
      /\ <[ "logs/app.log.gz" := "" ]> fs
         = <[filePath l +:+ ".gz" := fault_archive disk_full]> fs).
Proof.
  intros l err fs.
  apply (X8_compress_failures toy_gzip_encode disk_full l fs
           (<[ "logs/app.log.gz" := "" ]> fs) err).
  vm_compute. reflexivity.
Defined.

(** ** Construction and logging *)

(** X9: [NewLogger] fails exactly when [LogPath] is empty or the log
    directory cannot be created; an empty [LogPath] is refused before the
    directory is touched, with the error "LogPath is required". *)
Theorem X9_NewLogger_fails_iff (filepath_Join : string -> string -> string)
    (os : Faults) (config : Config) :
  ((exists err, NewLogger filepath_Join os config = inl err)
   <-> LogPath config = "" \/ mkdir_fault os (LogPath config) <> None)
  /\ (LogPath config = "" ->
      NewLogger filepath_Join os config = inl (ErrorNew "LogPath is required"))
  /\ (forall e, LogPath config <> "" -> mkdir_fault os (LogPath config) = Some e ->
      NewLogger filepath_Join os config
      = inl (Errorf "failed to create log directory: "
               (PathError "mkdir" (LogPath config) e))).
Proof.
  unfold NewLogger, os_MkdirAll.
  destruct (String.eqb_spec (LogPath config) "") as [Hempty|Hpath].
  - split; [|split].
    + split; [auto | eauto].
    + reflexivity.
    + intros e Hne. contradiction.
  - destruct (mkdir_fault os (LogPath config)) as [e|].
    + split; [|split].
      * split; [intros _; right; discriminate | eauto].
      * intros He. contradiction.
      * now intros e' _ [= <-].
    + split; [|split].
      * split; [intros [err Herr]; discriminate | intros [He|Hf]; contradiction].
      * intros He. contradiction.
      * intros e _ He. discriminate.
Qed.

Lemma X9_NewLogger_fails_iff_witness :
  NewLogger join_with_slash no_faults (mkConfig "" "app" true true 0)
  = inl (ErrorNew "LogPath is required").
Proof.
  apply (proj1 (proj2 (X9_NewLogger_fails_iff join_with_slash no_faults
                         (mkConfig "" "app" true true 0)))).
  reflexivity.
Defined.

(** X10: an empty [LogFileName] stands for "app"; the logger that is
    returned writes to the file [LogPath]/[LogFileName].log, which is also
    the path [CompressLogFile] will compress. *)
Theorem X10_NewLogger_file_path (filepath_Join : string -> string -> string)
    (os : Faults) (config : Config) (l : Logger)
    (Hok : NewLogger filepath_Join os config = inr l) :
  NewLogger filepath_Join os (with_LogFileName config "")
  = NewLogger filepath_Join os (with_LogFileName config "app")
  /\ filePath l
     = filepath_Join (LogPath config)
         ((if String.eqb (LogFileName config) "" then "app" else LogFileName config)
          +:+ ".log")
  /\ Filename (fileLogger l) = filePath l.
Proof.
  split; [reflexivity|]. unfold NewLogger in Hok.
  destruct (String.eqb (LogPath config) ""); [discriminate|].
  destruct (os_MkdirAll os (LogPath config)); [discriminate|].
  injection Hok as <-. split; reflexivity.
Qed.

Lemma X10_NewLogger_file_path_witness :
  let config := mkConfig "logs" "" true false 0 in
  NewLogger join_with_slash no_faults (with_LogFileName config "")
  = NewLogger join_with_slash no_faults (with_LogFileName config "app")
  /\ "logs/app.log"
     = join_with_slash (LogPath config)
         ((if String.eqb (LogFileName config) "" then "app" else LogFileName config)
          +:+ ".log")
  /\ "logs/app.log" = "logs/app.log".
Proof.
  intros config.
  apply (X10_NewLogger_file_path join_with_slash no_faults config
           {| zapLogger :=
                [NewCore (NewJSONEncoder encoderConfig)
                   (FileSync (mkLumberjack "logs/app.log" 100 3 28)) zap_DebugLevel;
                 NewCore (NewConsoleEncoder encoderConfig) Stdout zap_DebugLevel];
              filePath := "logs/app.log";
              fileLogger := mkLumberjack "logs/app.log" 100 3 28 |}).
  reflexivity.
Defined.

(** X11: [CompressOnClose] is not read: the logger is the same with the
    flag set and unset.  The cores are the JSON core on the log file,
    followed by the console core on standard output exactly when
    [EnableConsoleOutput] is set; both let every level through. *)
Theorem X11_NewLogger_cores (filepath_Join : string -> string -> string)
    (os : Faults) (config : Config) (l : Logger)
    (Hok : NewLogger filepath_Join os config = inr l) :
  (forall b, NewLogger filepath_Join os (with_CompressOnClose config b) = inr l)
  /\ zapLogger l
     = NewCore (NewJSONEncoder encoderConfig) (FileSync (fileLogger l)) zap_DebugLevel
       :: (if EnableConsoleOutput config
           then [NewCore (NewConsoleEncoder encoderConfig) Stdout zap_DebugLevel]
           else []).
Proof.
  unfold NewLogger in *. cbn [LogPath LogFileName EnableConsoleOutput with_CompressOnClose].
  destruct (String.eqb (LogPath config) ""); [discriminate|].
  destruct (os_MkdirAll os (LogPath config)); [discriminate|].
  injection Hok as <-. split; [reflexivity|].
  destruct (EnableConsoleOutput config); reflexivity.
Qed.

Lemma X11_NewLogger_cores_witness :
  let config := mkConfig "logs" "svc" false true 0 in
  let l := {| zapLogger :=
                [NewCore (NewJSONEncoder encoderConfig)
                   (FileSync (mkLumberjack "logs/svc.log" 100 3 28)) zap_DebugLevel];
              filePath := "logs/svc.log";
              fileLogger := mkLumberjack "logs/svc.log" 100 3 28 |} in
  (forall b, NewLogger join_with_slash no_faults (with_CompressOnClose config b) = inr l)
  /\ zapLogger l
     = NewCore (NewJSONEncoder encoderConfig) (FileSync (fileLogger l)) zap_DebugLevel
       :: (if EnableConsoleOutput config
           then [NewCore (NewConsoleEncoder encoderConfig) Stdout zap_DebugLevel]
           else []).
Proof.
  intros config l.
  apply (X11_NewLogger_cores join_with_slash no_faults config l). reflexivity.
Defined.

Lemma LogWithLevel_zap_log (Field : Type) (l : Logger) (level : LogLevel)
    (message : string) (fields : list Field) :
  LogWithLevel Field l level message fields
  = zap_log Field (zapLogger l) (level_of_token level) message fields.
Proof.
  unfold LogWithLevel, level_of_token, Debug, Info, Warn, Error, Fatal, Panic.
  destruct (String.eqb_spec level DebugLevel) as [->|]; [reflexivity|].
  destruct (String.eqb_spec level InfoLevel) as [->|]; [reflexivity|].
  destruct (String.eqb level WarnLevel); [reflexivity|].
  destruct (String.eqb level ErrorLevel); [reflexivity|].
  destruct (String.eqb level FatalLevel); [reflexivity|].
  destruct (String.eqb level PanicLevel); reflexivity.
Qed.

(** X12: on a logger built by [NewLogger], a call of [LogWithLevel] with
    any level token hands one entry with the message and the fields to
    the log file, and one to standard output when the console is
    enabled; no level, debug included, is held back. *)
Theorem X12_every_level_reaches_the_file (filepath_Join : string -> string -> string)
    (Field : Type) (os : Faults) (config : Config) (l : Logger)
    (level : LogLevel) (message : string) (fields : list Field)
    (written : list (zapcore_WriteSyncer * Entry Field))
    (Hok : NewLogger filepath_Join os config = inr l) :
  fst (LogWithLevel Field l level message fields written)
  = written
    ++ (FileSync (fileLogger l), mkEntry Field (level_of_token level) message fields)
       :: (if EnableConsoleOutput config
           then [(Stdout, mkEntry Field (level_of_token level) message fields)]
           else []).
Proof.
  rewrite LogWithLevel_zap_log. unfold NewLogger in Hok.
  destruct (String.eqb (LogPath config) ""); [discriminate|].
  destruct (os_MkdirAll os (LogPath config)); [discriminate|].
  injection Hok as <-. unfold zap_log. cbn [zapLogger fileLogger fst].
  destruct (EnableConsoleOutput config), (level_of_token level); reflexivity.
Qed.

Lemma X12_every_level_reaches_the_file_witness :
  let l := {| zapLogger :=
                [NewCore (NewJSONEncoder encoderConfig)
                   (FileSync (mkLumberjack "logs/app.log" 100 3 28)) zap_DebugLevel];
              filePath := "logs/app.log";
              fileLogger := mkLumberjack "logs/app.log" 100 3 28 |} in
  fst (LogWithLevel unit l "debug" "m" [tt] [])
  = [] ++ (FileSync (fileLogger l), mkEntry unit (level_of_token "debug") "m" [tt])
          :: (if EnableConsoleOutput (mkConfig "logs" "" false false 0)
              then [(Stdout, mkEntry unit (level_of_token "debug") "m" [tt])]
              else []).
Proof.
  intros l.
  apply (X12_every_level_reaches_the_file join_with_slash unit no_faults
           (mkConfig "logs" "" false false 0) l "debug" "m" [tt] []).
  reflexivity.
Defined.

(** X13: [LogWithLevel] ends the process exactly for the token "fatal"
    and panics exactly for the token "panic"; with every other token,
    recognized or not, it returns. *)
Theorem X13_LogWithLevel_control (Field : Type) (l : Logger) (level : LogLevel)
    (message : string) (fields : list Field)
    (written : list (zapcore_WriteSyncer * Entry Field)) :
  (snd (LogWithLevel Field l level message fields written) = Exits 1
   <-> level = FatalLevel)
  /\ (snd (LogWithLevel Field l level message fields written) = Panics message
      <-> level = PanicLevel)
  /\ (snd (LogWithLevel Field l level message fields written) = Returns
      <-> level <> FatalLevel /\ level <> PanicLevel).
Proof.
  rewrite LogWithLevel_zap_log. unfold zap_log, level_of_token. cbn [snd].
  destruct (String.eqb_spec level DebugLevel) as [->|Hd];
    [repeat split; try discriminate; intros [? ?]; contradiction|].
  destruct (String.eqb_spec level WarnLevel) as [->|Hw];
    [repeat split; try discriminate; intros [? ?]; contradiction|].
  destruct (String.eqb_spec level ErrorLevel) as [->|He];
    [repeat split; try discriminate; intros [? ?]; contradiction|].
  destruct (String.eqb_spec level FatalLevel) as [->|Hf];
    [repeat split; try discriminate; try reflexivity; intros [? ?]; contradiction|].
  destruct (String.eqb_spec level PanicLevel) as [->|Hp];
    [repeat split; try discriminate; try reflexivity; intros [? ?]; contradiction|].
  repeat split; try discriminate; try assumption; intros; contradiction.
Qed.

(** ** Closing *)

Lemma zap_Sync_NewLogger (filepath_Join : string -> string -> string) (os : Faults)
    (config : Config) (l : Logger) (stdout_sync : option string) :
  NewLogger filepath_Join os config = inr l ->
  zap_Sync (zapLogger l) stdout_sync
  = if EnableConsoleOutput config
    then match stdout_sync with Some text => Some (ErrorNew text) | None => None end
    else None.
Proof.
  unfold NewLogger.
  destruct (String.eqb (LogPath config) ""); [discriminate|].
  destruct (os_MkdirAll os (LogPath config)); [discriminate|].
  intros [= <-]. cbn [zapLogger].
  destruct (EnableConsoleOutput config), stdout_sync; reflexivity.
Qed.

(** X14: on a logger built by [NewLogger] with the console enabled, when
    syncing standard output fails with any text but "sync /dev/stdout:
    The handle is invalid", [Close] returns that error wrapped as "failed
    to sync logger" and returns before closing the log file, which stays
    open if it was; with exactly that text the error is dropped and the
    file is closed. *)
Theorem X14_Close_sync_error (filepath_Join : string -> string -> string)
    (os : Faults) (config : Config) (l : Logger)
    (text : string) (file_close : option Errno) (file_open : bool)
    (Hok : NewLogger filepath_Join os config = inr l)
    (Hconsole : EnableConsoleOutput config = true) :
  (text <> benign_sync_text ->
   Close (Some text) file_close l file_open
   = (Some (Errorf "failed to sync logger: " (ErrorNew text)), file_open))
  /\ Close (Some benign_sync_text) file_close l file_open
     = Close None file_close l file_open
  /\ snd (Close None file_close l file_open) = false.
Proof.
  unfold Close.
  rewrite !(zap_Sync_NewLogger _ _ _ _ _ Hok), Hconsole. cbn [Message].
  split; [|split].
  - intros Hne. unfold benign_sync_text in Hne.
    destruct (String.eqb_spec text "sync /dev/stdout: The handle is invalid");
      [contradiction | reflexivity].
  - reflexivity.
  - unfold lumberjack_Close. destruct file_open, file_close; reflexivity.
Qed.

Lemma X14_Close_sync_error_witness :
  let l := {| zapLogger :=
                [NewCore (NewJSONEncoder encoderConfig)
                   (FileSync (mkLumberjack "logs/app.log" 100 3 28)) zap_DebugLevel;
                 NewCore (NewConsoleEncoder encoderConfig) Stdout zap_DebugLevel];
              filePath := "logs/app.log";
              fileLogger := mkLumberjack "logs/app.log" 100 3 28 |} in
  Close (Some "sync /dev/stdout: invalid argument") None l true
  = (Some (Errorf "failed to sync logger: "
             (ErrorNew "sync /dev/stdout: invalid argument")), true).
Proof.
  intros l.
  apply (proj1 (X14_Close_sync_error join_with_slash no_faults
                  (mkConfig "logs" "" true false 0) l
                  "sync /dev/stdout: invalid argument" None true
                  eq_refl eq_refl)).
  discriminate.
Defined.

(** X15: on a logger built by [NewLogger] without console output,
    [Close] fails only when closing the log file fails; the file is
    released either way, and a second [Close] returns [nil]. *)
Theorem X15_Close_without_console (filepath_Join : string -> string -> string)
    (os : Faults) (config : Config) (l : Logger)
    (stdout_sync : option string) (file_close : option Errno) (file_open : bool)
    (Hok : NewLogger filepath_Join os config = inr l)
    (Hconsole : EnableConsoleOutput config = false) :
  let (result, file_open') := Close stdout_sync file_close l file_open in
  file_open' = false
  /\ (result = None <-> file_open = false \/ file_close = None)
  /\ (forall e, file_open = true -> file_close = Some e ->
      result = Some (Errorf "failed to close file logger: "
                       (PathError "close" (filePath l) e)))
  /\ Close stdout_sync file_close l file_open' = (None, false).
Proof.
  assert (Hname : Filename (fileLogger l) = filePath l).
  { unfold NewLogger in Hok.
    destruct (String.eqb (LogPath config) ""); [discriminate|].
    destruct (os_MkdirAll os (LogPath config)); [discriminate|].
    now injection Hok as <-. }
  unfold Close.
  rewrite !(zap_Sync_NewLogger _ _ _ _ _ Hok), Hconsole.
  unfold lumberjack_Close. rewrite Hname.
  destruct file_open, file_close as [e0|]; cbn.
  - repeat split; try discriminate.
    + intros [?|?]; discriminate.
    + now intros e' _ [= <-].
  - repeat split; auto. intros e' _ ?; discriminate.
  - repeat split; auto. intros e' ?; discriminate.
  - repeat split; auto. intros e' ?; discriminate.
Qed.

Lemma X15_Close_without_console_witness :
  let l := {| zapLogger :=
                [NewCore (NewJSONEncoder encoderConfig)
                   (FileSync (mkLumberjack "logs/app.log" 100 3 28)) zap_DebugLevel];
              filePath := "logs/app.log";
              fileLogger := mkLumberjack "logs/app.log" 100 3 28 |} in
  let (result, file_open') := Close None (Some EIO) l true in
  file_open' = false
  /\ (result = None <-> true = false \/ Some EIO = None)
  /\ (forall e, true = true -> Some EIO = Some e ->
      result = Some (Errorf "failed to close file logger: "
                       (PathError "close" (filePath l) e)))
  /\ Close None (Some EIO) l file_open' = (None, false).
Proof.
  intros l.
  apply (X15_Close_without_console join_with_slash no_faults
           (mkConfig "logs" "" false false 0) l None (Some EIO) true);
    reflexivity.
Defined.

(** ** Composing filters *)

Lemma filter_filter_andb (f g : FilterFunc) (logs : list LogEntry) :
  List.filter f (List.filter g logs) = List.filter (fun r => g r && f r) logs.
Proof.
  induction logs as [|r logs IH]; [reflexivity|]. simpl.
  destruct (g r); simpl; [destruct (f r)|]; now rewrite IH.
Qed.

(** X16: retaining by one predicate and then by another retains the
    records that satisfy both, and the order of the two steps does not
    matter. *)
Theorem X16_retain_composes (f g : FilterFunc) (logs : list LogEntry) :
  retain f (retain g logs) = retain (fun r => g r && f r) logs
  /\ retain f (retain g logs) = retain g (retain f logs).
Proof.
  rewrite !retain_filter, !filter_filter_andb. split; [reflexivity|].
  apply filter_ext. intros r. apply andb_comm.
Qed.

(** X17: a record has at most one level: what [FilterByLevel] retains for
    one level holds nothing that it retains for a different level. *)
Theorem X17_levels_exclude_each_other (L1 L2 : string) (logs : list LogEntry)
    (Hne : L1 <> L2) :
  retain (FilterByLevel L1) (retain (FilterByLevel L2) logs) = [].
Proof.
  rewrite !retain_filter, filter_filter_andb.
  induction logs as [|r logs IH]; [reflexivity|]. simpl.
  destruct (FilterByLevel L2 r) eqn:E2; [|exact IH].
  destruct (FilterByLevel L1 r) eqn:E1; [|exact IH].
  apply FilterByLevel_spec in E1, E2. congruence.
Qed.

Lemma X17_levels_exclude_each_other_witness :
  retain (FilterByLevel "info")
    (retain (FilterByLevel "warn") [info_record; warn_record; warn_record]) = [].
Proof.
  apply (X17_levels_exclude_each_other "info" "warn"). discriminate.
Defined.

(** ** Time ranges *)

(** X18: a range whose end is not after its start matches no record, and
    neither does a range between two neighbouring instants. *)
Theorem X18_empty_time_range (time_Parse : string -> string -> option Time)
    (start end_ : Time) (log : LogEntry)
    (Hempty : (end_ <= start + 1)%Z) :
  FilterByTimeRange time_Parse start end_ log = false.
Proof.
  destruct (log !! "timestamp") as [v|] eqn:Hts;
    [|unfold FilterByTimeRange; now rewrite Hts].
  destruct v; try (unfold FilterByTimeRange; now rewrite Hts).
  rewrite (FilterByTimeRange_first_parse _ _ _ _ _ Hts).
  destruct (first_parse time_Parse timestamp_layouts s) as [t|]; [|reflexivity].
  unfold After, Before. apply andb_false_iff.
  destruct (Z.ltb_spec start t); [right; apply Z.ltb_ge; lia | now left].
Qed.

Lemma X18_empty_time_range_witness :
  FilterByTimeRange parse_one_timestamp 1764662397317000000%Z 1764662397317000000%Z
    {[ "timestamp" := JString "2025-12-02T15:59:57.317+0800" ]} = false.
Proof.
  apply (X18_empty_time_range parse_one_timestamp). lia.
Defined.

(** X19: two ranges that meet at an instant [b] never both match a
    record, and a record stamped exactly [b] matches neither: splitting a
    window at [b] loses the records of that instant. *)
Theorem X19_adjacent_time_ranges (time_Parse : string -> string -> option Time)
    (a b c : Time) (log : LogEntry) (ts : string)
    (Hts : log !! "timestamp" = Some (JString ts)) :
  (FilterByTimeRange time_Parse a b log && FilterByTimeRange time_Parse b c log = false)
  /\ (first_parse time_Parse timestamp_layouts ts = Some b ->
      FilterByTimeRange time_Parse a b log = false
      /\ FilterByTimeRange time_Parse b c log = false).
Proof.
  rewrite !(FilterByTimeRange_first_parse _ _ _ _ _ Hts).
  destruct (first_parse time_Parse timestamp_layouts ts) as [t|];
    [|split; [reflexivity | discriminate]].
  unfold After, Before. split.
  - destruct (Z.ltb_spec t b), (Z.ltb_spec b t); try lia;
      rewrite ?andb_false_r; reflexivity.
  - intros [= ->]. rewrite Z.ltb_irrefl. now rewrite andb_false_r.
Qed.

Lemma X19_adjacent_time_ranges_witness :
  let log : LogEntry := {[ "timestamp" := JString "2025-12-02T15:59:57.317+0800" ]} in
  FilterByTimeRange parse_one_timestamp 0%Z 1764662397317000000%Z log = false
  /\ FilterByTimeRange parse_one_timestamp 1764662397317000000%Z
       1864662397317000000%Z log = false.
Proof.
  intros log.
  apply (proj2 (X19_adjacent_time_ranges parse_one_timestamp 0%Z
                  1764662397317000000%Z 1864662397317000000%Z log
                  "2025-12-02T15:59:57.317+0800" eq_refl)).
  reflexivity.
Defined.

(** X20: widening a range keeps every match. *)
Theorem X20_wider_time_range (time_Parse : string -> string -> option Time)
    (start end_ start' end' : Time) (log : LogEntry)
    (Hstart : (start' <= start)%Z) (Hend : (end_ <= end')%Z)
    (Hmatch : FilterByTimeRange time_Parse start end_ log = true) :
  FilterByTimeRange time_Parse start' end' log = true.
Proof.
  destruct (log !! "timestamp") as [v|] eqn:Hts;
    [|unfold FilterByTimeRange in Hmatch; rewrite Hts in Hmatch; discriminate].
  destruct v;
    try (unfold FilterByTimeRange in Hmatch; rewrite Hts in Hmatch; discriminate).
  rewrite (FilterByTimeRange_first_parse _ _ _ _ _ Hts) in Hmatch.
  rewrite (FilterByTimeRange_first_parse _ _ _ _ _ Hts).
  destruct (first_parse time_Parse timestamp_layouts s) as [t|]; [|discriminate].
  unfold After, Before in *. apply andb_prop in Hmatch as [H1 H2].
  apply Z.ltb_lt in H1, H2. apply andb_true_intro. split; apply Z.ltb_lt; lia.
Qed.

Lemma X20_wider_time_range_witness :
  FilterByTimeRange parse_one_timestamp 0%Z 1864662397317000000%Z
    {[ "timestamp" := JString "2025-12-02T15:59:57.317+0800" ]} = true.
Proof.
  apply (X20_wider_time_range parse_one_timestamp
           1764662397000000000%Z 1764662398000000000%Z 0%Z 1864662397317000000%Z);
    [lia | lia | reflexivity].
Defined.

(** ** Lines that are skipped *)




